(** * SynBioAutomation.py: the capture-session program, embedded and verified

    The program is a command-line script run once per command (and once per
    cron tick).  Everything it remembers between two runs lives outside the
    process: pickle files in the working directory, the user's crontab, and
    the level of GPIO channel 12.  The embedding therefore has

    - a [World]: the file system, the pin, the installed crontab, the console
      and the shell commands issued;
    - an [Env] per process run: what the outside answers during that run
      (working directory, clock readings, gain readings of the camera, and
      whether the camera, [os.makedirs] and the crontab library accept what
      they are asked);
    - a state-and-exception monad [M] in which every function of the script
      is written statement by statement.

    The only loop of the script (polling the camera gains) has no bound, so
    it takes fuel: running out of fuel is the outcome [Hang]. *)

From Stdlib Require Import String Ascii ZArith QArith List Lia Bool Arith.
From stdpp Require Import gmap strings list fin_maps.

Local Open Scope string_scope.
Local Open Scope N_scope.

(** ** time.strftime *)

(** The broken-down local time that [time.localtime()] returns. *)
Record struct_time := mk_time {
  tm_year : N; tm_mon : N; tm_mday : N;
  tm_hour : N; tm_min : N; tm_sec : N
}.

Definition digit (d : N) : ascii := ascii_of_N (48 + d).

Definition two_digits (n : N) : string :=
  String (digit (n / 10)) (String (digit (n mod 10)) EmptyString).

Definition four_digits (n : N) : string :=
  String (digit (n / 1000)) (String (digit (n / 100 mod 10))
    (String (digit (n / 10 mod 10)) (String (digit (n mod 10)) EmptyString))).

(** The conversion of one directive.  [%Y] is the year in decimal: four
    digits for the years 1000..9999 ([time.strftime] of Python 2 refuses the
    years before 1900). *)
Definition directive (c : ascii) (t : struct_time) : string :=
  if Ascii.eqb c "Y" then four_digits (tm_year t)
  else if Ascii.eqb c "m" then two_digits (tm_mon t)
  else if Ascii.eqb c "d" then two_digits (tm_mday t)
  else if Ascii.eqb c "H" then two_digits (tm_hour t)
  else if Ascii.eqb c "M" then two_digits (tm_min t)
  else if Ascii.eqb c "S" then two_digits (tm_sec t)
  else String "%" (String c EmptyString).

Fixpoint strftime (fmt : string) (t : struct_time) : string :=
  match fmt with
  | EmptyString => EmptyString
  | String c r =>
      if Ascii.eqb c "%" then
        match r with
        | EmptyString => String c EmptyString
        | String d r' => directive d t +:+ strftime r' t
        end
      else String c (strftime r t)
  end.




Local Close Scope N_scope.

(** ** Data model *)

(** Values the script pickles. *)
Inductive PyVal :=
| PyInt (z : Z)
| PyStr (s : string)
| PyFraction (q : Q)
| PyGains (rb : Q * Q).

(** What a captured frame depends on: the camera settings in force and the
    scene in front of the lens. *)
Record Image := mk_image {
  img_resolution : Z * Z;
  img_iso : Z;
  img_shutter_speed : Z;
  img_awb_gains : Q * Q;
  img_analog_gain : Q;
  img_digital_gain : Q;
  img_scene : nat
}.

Inductive Node :=
| Dir
| Pickle (v : PyVal)
| Png (i : Image).

(** GPIO channel 12: released (an input), or driven low or high. *)
Inductive PinState :=
| Input
| Output (high : bool).

(** A crontab line.  The minute field is kept as the setter calls made on
    it, in order; how python-crontab renders them is not needed here. *)
Inductive SliceCall :=
| On (v : string)
| Every (v : string).

Record CronItem := mk_item {
  command : string;
  minute : list SliceCall;
  enabled : bool
}.

(** Everything that outlives a process.  Paths are the literal strings the
    script builds. *)
Record World := mk_world {
  fs : gmap string Node;
  pin12 : PinState;
  crontab : list CronItem;
  stdout : list string;
  shell : list string
}.

(** What the outside answers during one run of the script. *)
Record Env := mk_env {
  workdir : string;              (* the working directory, below the root *)
  script : string;               (* os.path.realpath(sys.argv[0]) *)
  clock : nat -> struct_time;    (* the k-th reading of the local time *)
  gains : nat -> Q * Q;          (* analog and digital gain at the k-th poll *)
  awb_auto : Q * Q;              (* gains the auto white balance settled on *)
  scene : nat;                   (* what is in front of the lens *)
  camera_opens : bool;           (* picamera.PiCamera() succeeds *)
  capture_ok : bool;             (* camera.capture succeeds *)
  makedirs_ok : bool;            (* the system lets os.makedirs create *)
  every_ok : bool                (* crontab accepts the interval string *)
}.

Inductive Exn :=
| IOError (path : string)        (* open of a missing file *)
| OSError (path : string)        (* os.makedirs *)
| UnpicklingError (path : string)
| ShutilError (path : string)
| PiCameraError
| TypeError
| ValueError                     (* crontab slice setter *)
| NameError
| RuntimeError.

(** State of one process: the world, how often the clock was read, the
    CronTab objects built so far (a handle is an index), and the module
    global [CronTimeSetting]. *)
Record Proc := mk_proc {
  world : World;
  clock_reads : nat;
  cron_objs : list (list CronItem);
  CronTimeSetting : option string
}.

Inductive Res (A : Type) :=
| Ok (a : A) (s : Proc)
| Raise (e : Exn) (s : Proc)
| Hang.
Arguments Ok {A} a s.
Arguments Raise {A} e s.
Arguments Hang {A}.

Definition M (A : Type) : Type := Proc -> Res A.

Definition ret {A} (a : A) : M A := fun s => Ok a s.

Definition bind {A B} (m : M A) (k : A -> M B) : M B :=
  fun s => match m s with
           | Ok a s' => k a s'
           | Raise e s' => Raise e s'
           | Hang => Hang
           end.

Definition raise {A} (e : Exn) : M A := fun s => Raise e s.

Declare Scope py_scope.
Delimit Scope py_scope with py.
Notation "x <- m ;; k" := (bind m (fun x => k))
  (at level 100, m at next level, right associativity) : py_scope.
Notation "m ;; k" := (bind m (fun _ => k))
  (at level 100, right associativity) : py_scope.
Local Open Scope py_scope.

Definition get_world : M World := fun s => Ok (world s) s.

Definition set_world (w : World) : M unit :=
  fun s => Ok tt (mk_proc w (clock_reads s) (cron_objs s) (CronTimeSetting s)).

Definition set_fs (m : gmap string Node) (w : World) : World :=
  mk_world m (pin12 w) (crontab w) (stdout w) (shell w).
Definition set_pin12 (p : PinState) (w : World) : World :=
  mk_world (fs w) p (crontab w) (stdout w) (shell w).
Definition set_crontab (c : list CronItem) (w : World) : World :=
  mk_world (fs w) (pin12 w) c (stdout w) (shell w).
Definition set_stdout (o : list string) (w : World) : World :=
  mk_world (fs w) (pin12 w) (crontab w) o (shell w).
Definition set_shell (c : list string) (w : World) : World :=
  mk_world (fs w) (pin12 w) (crontab w) (stdout w) c.

Definition modify_world (f : World -> World) : M unit :=
  w <- get_world ;; set_world (f w).

(** ** The camera object *)

Record PiCamera := mk_camera {
  resolution : Z * Z;
  framerate : Z;
  iso : Z;
  shutter_speed : Z;
  exposure_mode : string;
  awb_mode : string;
  awb_gains : Q * Q;
  analog_gain : Q;
  digital_gain : Q
}.

Definition set_resolution (v : Z * Z) (c : PiCamera) : PiCamera :=
  mk_camera v (framerate c) (iso c) (shutter_speed c) (exposure_mode c)
    (awb_mode c) (awb_gains c) (analog_gain c) (digital_gain c).
Definition set_framerate (v : Z) (c : PiCamera) : PiCamera :=
  mk_camera (resolution c) v (iso c) (shutter_speed c) (exposure_mode c)
    (awb_mode c) (awb_gains c) (analog_gain c) (digital_gain c).
Definition set_iso (v : Z) (c : PiCamera) : PiCamera :=
  mk_camera (resolution c) (framerate c) v (shutter_speed c) (exposure_mode c)
    (awb_mode c) (awb_gains c) (analog_gain c) (digital_gain c).
Definition set_shutter_speed (v : Z) (c : PiCamera) : PiCamera :=
  mk_camera (resolution c) (framerate c) (iso c) v (exposure_mode c)
    (awb_mode c) (awb_gains c) (analog_gain c) (digital_gain c).
Definition set_exposure_mode (v : string) (c : PiCamera) : PiCamera :=
  mk_camera (resolution c) (framerate c) (iso c) (shutter_speed c) v
    (awb_mode c) (awb_gains c) (analog_gain c) (digital_gain c).
Definition set_awb_mode (v : string) (c : PiCamera) : PiCamera :=
  mk_camera (resolution c) (framerate c) (iso c) (shutter_speed c)
    (exposure_mode c) v (awb_gains c) (analog_gain c) (digital_gain c).
Definition set_awb_gains (v : Q * Q) (c : PiCamera) : PiCamera :=
  mk_camera (resolution c) (framerate c) (iso c) (shutter_speed c)
    (exposure_mode c) (awb_mode c) v (analog_gain c) (digital_gain c).
Definition set_gains (v : Q * Q) (c : PiCamera) : PiCamera :=
  mk_camera (resolution c) (framerate c) (iso c) (shutter_speed c)
    (exposure_mode c) (awb_mode c) (awb_gains c) (fst v) (snd v).

(** A camera as [picamera.PiCamera()] hands it out: everything automatic. *)
Definition fresh_camera : PiCamera :=
  mk_camera (1280, 720)%Z 30%Z 0%Z 0%Z "auto" "auto" (0, 0)%Q 0%Q 0%Q.

(** The frame a camera takes of a scene. *)
Definition snapshot (c : PiCamera) (sc : nat) : Image :=
  mk_image (resolution c) (iso c) (shutter_speed c) (awb_gains c)
    (analog_gain c) (digital_gain c) sc.

(** ** Library calls that need no environment *)

Definition print (s : string) : M unit :=
  modify_world (fun w => set_stdout (stdout w ++ [s]) w).

(** [os.system] runs the command and returns its status; a failing command
    raises nothing. *)
Definition os_system (c : string) : M unit :=
  modify_world (fun w => set_shell (shell w ++ [c]) w).

(** RPi.GPIO.  The numbering mode and the warning flag do not change what
    happens to channel 12. *)
Definition GPIO_setmode (mode : string) : M unit := ret tt.
Definition GPIO_setwarnings (flag : bool) : M unit := ret tt.
Definition GPIO_setup_out (initial : bool) : M unit :=
  modify_world (set_pin12 (Output initial)).
Definition GPIO_output (high : bool) : M unit :=
  w <- get_world ;;
  match pin12 w with
  | Output _ => set_world (set_pin12 (Output high) w)
  | Input => raise RuntimeError
  end.
Definition GPIO_cleanup : M unit := modify_world (set_pin12 Input).

(** python-crontab.  [CronTab()] builds a new object holding a copy of the
    installed crontab of the invoking user; [new], the slice setters and
    [remove_all] change that object only; [write] installs the object's
    lines. *)
Definition set_cron_objs (o : list (list CronItem)) (s : Proc) : Proc :=
  mk_proc (world s) (clock_reads s) o (CronTimeSetting s).

Definition CronTab : M nat :=
  fun s => Ok (length (cron_objs s))
              (set_cron_objs (cron_objs s ++ [crontab (world s)]) s).

Definition cron_lines (h : nat) : M (list CronItem) :=
  fun s => match cron_objs s !! h with
           | Some o => Ok o s
           | None => Raise RuntimeError s
           end.

Definition cron_set_lines (h : nat) (o : list CronItem) : M unit :=
  fun s => Ok tt (set_cron_objs (<[h := o]> (cron_objs s)) s).

(** [cron.new(command=c)]: a job is named by its object and its position. *)
Definition cron_new (h : nat) (c : string) : M (nat * nat) :=
  o <- cron_lines h ;;
  cron_set_lines h (o ++ [mk_item c [] true]) ;;
  ret (h, length o).

Definition job_alter (f : CronItem -> CronItem) (job : nat * nat) : M unit :=
  o <- cron_lines (fst job) ;;
  cron_set_lines (fst job) (alter f (snd job) o).

Definition job_minute_on (v : string) : nat * nat -> M unit :=
  job_alter (fun i => mk_item (command i) (minute i ++ [On v]) (enabled i)).

Definition job_enable : nat * nat -> M unit :=
  job_alter (fun i => mk_item (command i) (minute i) true).

Definition cron_remove_all (h : nat) : M unit :=
  _ <- cron_lines h ;; cron_set_lines h [].

Definition cron_write (h : nat) : M unit :=
  o <- cron_lines h ;; modify_world (set_crontab o).

(** The module global [CronTimeSetting]. *)
Definition set_CronTimeSetting (v : string) : M unit :=
  fun s => Ok tt (mk_proc (world s) (clock_reads s) (cron_objs s) (Some v)).
Definition get_CronTimeSetting : M string :=
  fun s => match CronTimeSetting s with
           | Some v => Ok v s
           | None => Raise NameError s
           end.

Definition as_str (v : PyVal) : M string :=
  match v with PyStr s => ret s | _ => raise TypeError end.
Definition as_int (v : PyVal) : M Z :=
  match v with PyInt z => ret z | _ => raise TypeError end.
Definition as_gains (v : PyVal) : M (Q * Q) :=
  match v with PyGains g => ret g | _ => raise TypeError end.

(** ** os.path *)

Fixpoint has_slash (p : string) : bool :=
  match p with
  | EmptyString => false
  | String c r => Ascii.eqb c "/" || has_slash r
  end.

(** What follows the last slash. *)
Fixpoint basename (p : string) : string :=
  match p with
  | EmptyString => EmptyString
  | String c r =>
      if has_slash r then basename r
      else if Ascii.eqb c "/" then r else p
  end.

Fixpoint ends_with_slash (p : string) : bool :=
  match p with
  | EmptyString => false
  | String c EmptyString => Ascii.eqb c "/"
  | String _ r => ends_with_slash r
  end.

(** [os.path.join(a, b)] for a relative [b]. *)
Definition os_path_join (a b : string) : string :=
  if ends_with_slash a then a +:+ b
  else match a with
       | EmptyString => b
       | _ => a +:+ "/" +:+ b
       end.

Definition is_dir (o : option Node) : bool :=
  match o with Some Dir => true | _ => false end.

(** ** One run of the script *)

Section Run.

Variable env : Env.
Variable fuel : nat.

(** [os.getcwd()] is an absolute path. *)
Definition getcwd : string := "/" +:+ workdir env.

(** A file name handed to [open] or to the camera: a relative one is looked
    up from the working directory. *)
Definition resolve (file : string) : string :=
  match file with
  | String "/" _ => file
  | _ => getcwd +:+ "/" +:+ file
  end.

Definition os_path_exists (p : string) : M bool :=
  w <- get_world ;;
  ret (match fs w !! resolve p with Some _ => true | None => false end).

Definition os_makedirs (p : string) : M unit :=
  w <- get_world ;;
  match fs w !! resolve p with
  | Some _ => raise (OSError (resolve p))
  | None =>
      if makedirs_ok env
      then set_world (set_fs (<[resolve p := Dir]> (fs w)) w)
      else raise (OSError (resolve p))
  end.

(** [pickle.dump(v, open(file, 'wb'))]: opening a directory for writing
    fails. *)
Definition pickle_dump (v : PyVal) (file : string) : M unit :=
  w <- get_world ;;
  if is_dir (fs w !! resolve file)
  then raise (IOError (resolve file))
  else set_world (set_fs (<[resolve file := Pickle v]> (fs w)) w).

(** [pickle.load(open(file, 'rb'))] *)
Definition pickle_load (file : string) : M PyVal :=
  w <- get_world ;;
  match fs w !! resolve file with
  | Some (Pickle v) => ret v
  | Some (Png _) => raise (UnpicklingError (resolve file))
  | Some Dir | None => raise (IOError (resolve file))
  end.

(** [shutil.move(src, dst)]: a rename, which replaces a file at [dst]; when
    [dst] is a directory the file goes inside it under its own name, unless
    that name is taken. *)
Definition shutil_move (src dst : string) : M unit :=
  w <- get_world ;;
  match fs w !! resolve src with
  | None => raise (IOError (resolve src))
  | Some n =>
      if is_dir (fs w !! resolve dst) then
        let real_dst := os_path_join (resolve dst) (basename src) in
        match fs w !! real_dst with
        | Some _ => raise (ShutilError real_dst)
        | None =>
            set_world (set_fs (<[real_dst := n]> (delete (resolve src) (fs w))) w)
        end
      else
        set_world (set_fs (<[resolve dst := n]> (delete (resolve src) (fs w))) w)
  end.

(** [time.strftime(fmt)] formats the local time read at the call. *)
Definition time_strftime (fmt : string) : M string :=
  fun s => Ok (strftime fmt (clock env (clock_reads s)))
              (mk_proc (world s) (S (clock_reads s)) (cron_objs s)
                       (CronTimeSetting s)).

(** [job.minute.every(v)] *)
Definition job_minute_every (v : string) (job : nat * nat) : M unit :=
  if every_ok env
  then job_alter (fun i => mk_item (command i) (minute i ++ [Every v])
                                   (enabled i)) job
  else raise ValueError.

(** [picamera.PiCamera()] *)
Definition PiCamera_open : M PiCamera :=
  if camera_opens env then ret fresh_camera else raise PiCameraError.

(** [camera.awb_gains]: the gains set by hand once the white balance is
    off, those of the automatic white balance before. *)
Definition get_awb_gains (camera : PiCamera) : Q * Q :=
  if String.eqb (awb_mode camera) "off" then awb_gains camera
  else awb_auto env.

(** [camera.capture(file)] *)
Definition camera_capture (camera : PiCamera) (file : string) : M unit :=
  if capture_ok env
  then
    w <- get_world ;;
    if is_dir (fs w !! resolve file)
    then raise (IOError (resolve file))
    else set_world (set_fs (<[resolve file :=
                                Png (snapshot camera (scene env))]> (fs w)) w)
  else raise PiCameraError.

(** The polling loop of both camera functions,
    [while camera.analog_gain != 1 or camera.digital_gain != 1: time.sleep(0.1)].
    The [k]-th test of the condition sees the gains [gains env k]; the loop
    touches nothing but the camera.  [None]: still polling after [n] tests. *)
Fixpoint poll_gains (n k : nat) (camera : PiCamera) : option PiCamera :=
  match n with
  | O => None
  | S n' =>
      let camera := set_gains (gains env k) camera in
      if negb (Qeq_bool (analog_gain camera) 1)
         || negb (Qeq_bool (digital_gain camera) 1)
      then poll_gains n' (S k) camera
      else Some camera
  end.

Definition wait_for_gains (camera : PiCamera) : M PiCamera :=
  fun s => match poll_gains fuel 0 camera with
           | Some camera => Ok camera s
           | None => Hang
           end.

Definition drive_push : string :=
  "sudo -u pi /home/pi/gopath/bin/drive push -quiet -no-clobber ".

Definition begin_CRON : M unit :=
  minute_time <- time_strftime "%M" ;;
  cron <- CronTab ;;
  job <- cron_new cron
           ("cd " +:+ getcwd +:+ " && sudo /usr/bin/python " +:+ script env) ;;
  job_minute_on minute_time job ;;
  setting <- get_CronTimeSetting ;;
  job_minute_every setting job ;;
  job_enable job ;;
  cron_write cron.

Definition init_GPIO : M unit :=
  GPIO_setmode "BCM" ;;
  GPIO_setwarnings false ;;
  GPIO_setup_out false.

Definition initialize_camera : M unit :=
  let currentDirectory := getcwd +:+ "/" in
  camera <- PiCamera_open ;;
  let camera := set_resolution (2592, 1944)%Z camera in
  let camera := set_framerate 1 camera in
  let camera := set_iso 100 camera in
  let camera := set_shutter_speed 1000000 camera in
  (* picamera.exposure_mode='backlight' sets an attribute of the module *)
  camera <- wait_for_gains camera ;;
  let camera := set_exposure_mode "off" camera in
  let g := get_awb_gains camera in
  let camera := set_awb_mode "off" camera in
  let camera := set_awb_gains (3 # 2, 3 # 2) camera in
  camera_capture camera "Initial.png" ;;
  path <- (v <- pickle_load (currentDirectory +:+ "path.p") ;; as_str v) ;;
  shutil_move (currentDirectory +:+ "Initial.png") (path +:+ "Initial.png") ;;
  os_system (drive_push +:+ path) ;;
  pickle_dump (PyInt (iso camera)) "iso.p" ;;
  pickle_dump (PyInt (shutter_speed camera)) "shutter_speed.p" ;;
  pickle_dump (PyGains (get_awb_gains camera)) "awb_gain.p" ;;
  pickle_dump (PyFraction (analog_gain camera)) "analog_gain.p" ;;
  pickle_dump (PyFraction (digital_gain camera)) "digital_gain.p".

Definition continuous_capture : M unit :=
  let currentDirectory := getcwd +:+ "/" in
  camera <- PiCamera_open ;;
  let camera := set_resolution (2592, 1944)%Z camera in
  let camera := set_framerate 1 camera in
  v <- (v <- pickle_load (currentDirectory +:+ "iso.p") ;; as_int v) ;;
  let camera := set_iso v camera in
  v <- (v <- pickle_load (currentDirectory +:+ "shutter_speed.p") ;; as_int v) ;;
  let camera := set_shutter_speed v camera in
  (* picamera.exposure_mode='backlight' sets an attribute of the module *)
  camera <- wait_for_gains camera ;;
  let camera := set_exposure_mode "off" camera in
  g <- (v <- pickle_load (currentDirectory +:+ "awb_gain.p") ;; as_gains v) ;;
  let camera := set_awb_mode "off" camera in
  let camera := set_awb_gains g camera in
  stamp <- time_strftime "%Y_%m_%d_%H%M%S" ;;
  let filename := currentDirectory +:+ stamp +:+ ".png" in
  path <- (v <- pickle_load (currentDirectory +:+ "path.p") ;; as_str v) ;;
  stamp <- time_strftime "%Y_%m_%d_%H%M%S" ;;
  let destination := path +:+ stamp +:+ ".png" in
  camera_capture camera filename ;;
  shutil_move filename destination ;;
  os_system (drive_push +:+ path).

Definition LED_ON : M unit := GPIO_output true.

Definition LED_OFF : M unit := GPIO_output false.

Definition argv_at (argv : list string) (i : nat) : string := nth i argv "".

Definition main (argv : list string) : M unit :=
  init_GPIO ;;
  (if (length argv =? 3)%nat then
     (if String.eqb (argv_at argv 1) "Initialize" then
        print "Initializing..." ;;
        LED_ON ;;
        let path := getcwd +:+ "/" +:+ argv_at argv 2 in
        found <- os_path_exists path ;;
        (if negb found then os_makedirs path else ret tt) ;;
        let path := path +:+ "/" in
        pickle_dump (PyStr path) "path.p" ;;
        print "Taking Photo" ;;
        initialize_camera ;;
        LED_OFF ;;
        print "Initialized"
      else ret tt) ;;
     (if String.eqb (argv_at argv 1) "TimeCourse" then
        print "Scheduling CRON Job" ;;
        set_CronTimeSetting (argv_at argv 2) ;;
        begin_CRON ;;
        print "Taking Photo" ;;
        LED_ON ;;
        continuous_capture ;;
        LED_OFF ;;
        print "Time Course Active"
      else ret tt)
   else if (length argv =? 2)%nat then
     (if String.eqb (argv_at argv 1) "End" then
        print "Ending Time Course" ;;
        (c <- CronTab ;; cron_remove_all c) ;;
        (c <- CronTab ;; cron_write c) ;;
        print "Done"
      else ret tt)
   else
     print "Taking Photo" ;;
     LED_ON ;;
     continuous_capture ;;
     LED_OFF) ;;
  GPIO_cleanup.

End Run.

(** How a process ends: it returns, or an exception reaches the top level.
    Either way the world is what the process made of it. *)
Inductive Outcome :=
| Returned (w : World)
| Raised (e : Exn) (w : World).

Definition world_of (o : Outcome) : World :=
  match o with Returned w => w | Raised _ w => w end.

(** One process: [None] when the gain loop is still polling after [fuel]
    tests. *)
Definition run (env : Env) (fuel : nat) (argv : list string) (w : World)
  : option Outcome :=
  match main env fuel argv (mk_proc w 0 [] None) with
  | Ok _ s => Some (Returned (world s))
  | Raise e s => Some (Raised e (world s))
  | Hang => None
  end.

(** ** Sessions and what is observed of a world *)

(** One process start: what the outside will answer, the fuel granted to
    the gain loop, and [sys.argv]. *)
Record Invocation := mk_inv {
  inv_env : Env;
  inv_fuel : nat;
  inv_argv : list string
}.

(** Processes run one after the other, each from the world the previous one
    left, whether it returned or raised.  [None] when one of them hangs. *)
Fixpoint session (invs : list Invocation) (w : World) : option World :=
  match invs with
  | [] => Some w
  | i :: rest =>
      match run (inv_env i) (inv_fuel i) (inv_argv i) w with
      | Some o => session rest (world_of o)
      | None => None
      end
  end.

(** The no-argument invocation, [Capture()]. *)
Definition is_capture (i : Invocation) : Prop := length (inv_argv i) = 1%nat.

(** The illumination is on when channel 12 is driven high. *)
Definition actuator_on (w : World) : Prop := pin12 w = Output true.

(** The files of the Calibration Store. *)
Definition store_file (env : Env) (name : string) : string :=
  getcwd env +:+ "/" +:+ name.

Definition store_names : list string :=
  ["iso.p"; "shutter_speed.p"; "awb_gain.p"; "analog_gain.p";
   "digital_gain.p"; "path.p"].

(** No save has taken place: none of the store files is there. *)
Definition store_empty (env : Env) (w : World) : Prop :=
  Forall (fun name => fs w !! store_file env name = None) store_names.

Record CalibrationProfile := mk_profile {
  sensitivity : Z;
  exposureDurationMicros : Z;
  whiteBalanceGains : Q * Q
}.

(** What a capture reads back: the profile and the output directory. *)
Definition load (env : Env) (w : World) : option (CalibrationProfile * string) :=
  match fs w !! store_file env "iso.p",
        fs w !! store_file env "shutter_speed.p",
        fs w !! store_file env "awb_gain.p",
        fs w !! store_file env "path.p" with
  | Some (Pickle (PyInt i)), Some (Pickle (PyInt e)),
    Some (Pickle (PyGains g)), Some (Pickle (PyStr p)) =>
      Some (mk_profile i e g, p)
  | _, _, _, _ => None
  end.

(** The settings a frame was taken with. *)
Definition profile_of_image (i : Image) : CalibrationProfile :=
  mk_profile (img_iso i) (img_shutter_speed i) (img_awb_gains i).

(** The crontab line of this program, and the installed lines that run it. *)
Definition this_command (env : Env) : string :=
  "cd " +:+ getcwd env +:+ " && sudo /usr/bin/python " +:+ script env.

Definition trigger_entries (env : Env) (w : World) : list CronItem :=
  List.filter (fun i => String.eqb (command i) (this_command env)) (crontab w).

(** Both gains read as the reference value 1. *)
Definition settled (g : Q * Q) : bool :=
  Qeq_bool (fst g) 1 && Qeq_bool (snd g) 1.


(** No directory has a name ending in [.png]. *)
Definition png_free (w : World) : Prop :=
  forall p, fs w !! (p +:+ ".png") <> Some Dir.

(** The name [Capture()] gives a frame taken at local time [t]. *)
Definition stamp (t : struct_time) : string :=
  strftime "%Y_%m_%d_%H%M%S" t +:+ ".png".

Fixpoint last_char (p : string) : ascii :=
  match p with
  | EmptyString => "000"%char
  | String c EmptyString => c
  | String _ r => last_char r
  end.

(** What a capture may change: paths ending in [g] that are not
    directories, and the list of shell commands. *)
Definition png_frame (w w' : World) : Prop :=
  pin12 w' = pin12 w /\ crontab w' = crontab w /\ stdout w' = stdout w /\
  (forall p, last_char p <> "g"%char -> fs w' !! p = fs w !! p) /\
  (forall p, fs w' !! p = Some Dir <-> fs w !! p = Some Dir).

(** The exceptions the camera functions can raise. *)
Definition camera_exn (e : Exn) : bool :=
  match e with
  | IOError _ | UnpicklingError _ | ShutilError _ | PiCameraError
  | TypeError => true
  | _ => false
  end.

(** The camera as [continuous_capture] has set it when the polling starts,
    and the frame it takes once the gains [c] are frozen. *)
Definition capture_camera (p : CalibrationProfile) : PiCamera :=
  set_shutter_speed (exposureDurationMicros p)
    (set_iso (sensitivity p)
       (set_framerate 1 (set_resolution (2592, 1944)%Z fresh_camera))).

Definition frame_of (env : Env) (p : CalibrationProfile) (c : PiCamera) : Image :=
  snapshot (set_awb_gains (whiteBalanceGains p)
              (set_awb_mode "off" (set_exposure_mode "off" c))) (scene env).

(** Where [Capture()] first writes the frame, and where it moves it. *)
Definition capture_filename (env : Env) (t : struct_time) : string :=
  store_file env (stamp t).

Definition capture_destination (env : Env) (path : string) (t : struct_time)
  : string :=
  resolve env (path +:+ stamp t).

(** What [initialize_camera] leaves alone: the pin, the crontab, the
    console, and which paths are directories. *)
Definition init_frame (w w' : World) : Prop :=
  pin12 w' = pin12 w /\ crontab w' = crontab w /\ stdout w' = stdout w /\
  (forall p, fs w' !! p = Some Dir <-> fs w !! p = Some Dir).

(** The profile [initialize_camera] sets on the camera. *)
Definition calibration_profile : CalibrationProfile :=
  mk_profile 100 1000000 (3 # 2, 3 # 2).

(** The line [begin_CRON] adds when the minute is [mm] and the interval
    argument is [v]. *)
Definition new_entry (env : Env) (mm v : string) : CronItem :=
  mk_item (this_command env) [On mm; Every v] true.


(** ** A session on a Raspberry Pi, for the examples *)

(** The camera needs two polls to settle, and the clock advances one second
    per reading from 09:26:50 on 14 March 2016. *)
Definition pi_env : Env :=
  mk_env "home/pi" "/home/pi/SynBioAutomation.py"
    (fun k => mk_time 2016 3 14 9 26 (50 + N.of_nat k))
    (fun k => if (k <? 2)%nat then (2, 1)%Q else (1, 1)%Q)
    (7 # 4, 9 # 5)%Q 0 true true true true.

Definition with_clock (c : nat -> struct_time) (e : Env) : Env :=
  mk_env (workdir e) (script e) c (gains e) (awb_auto e) (scene e)
    (camera_opens e) (capture_ok e) (makedirs_ok e) (every_ok e).

Definition with_scene (n : nat) (e : Env) : Env :=
  mk_env (workdir e) (script e) (clock e) (gains e) (awb_auto e) n
    (camera_opens e) (capture_ok e) (makedirs_ok e) (every_ok e).

Definition with_gains (g : nat -> Q * Q) (e : Env) : Env :=
  mk_env (workdir e) (script e) (clock e) g (awb_auto e) (scene e)
    (camera_opens e) (capture_ok e) (makedirs_ok e) (every_ok e).



Definition py : string := "SynBioAutomation.py".

(** Nothing on disk, the pin released, an empty crontab. *)
Definition blank_world : World := mk_world ∅ Input [] [] [].

Definition world_after (o : option Outcome) : World :=
  match o with
  | Some o => world_of o
  | None => blank_world
  end.

(** The world after [Initialize exp1]. *)
Definition ready_world : World :=
  Eval vm_compute in
    world_after (run pi_env 3 [py; "Initialize"; "exp1"] blank_world).

(** The world after a [Capture()] in the initialised session. *)
Definition captured_world : World :=
  Eval vm_compute in world_after (run pi_env 3 [py] ready_world).

(** The world after [TimeCourse 60] in the initialised session. *)
Definition scheduled_world : World :=
  Eval vm_compute in
    world_after (run pi_env 3 [py; "TimeCourse"; "60"] ready_world).


(** A camera that never settles: the analog gain stays at 2. *)
Definition restless_env : Env := with_gains (fun _ => (2, 1)%Q) pi_env.




(** ** Series of captures *)



Definition is_absolute (p : string) : bool :=
  match p with
  | String "/" _ => true
  | _ => false
  end.







(** A check that no directory of a world has a name ending in [g]. *)
Definition dirs_not_g (w : World) : bool :=
  forallb (fun kv => match snd kv with
                     | Dir => negb (Ascii.eqb (last_char (fst kv)) "g")
                     | _ => true
                     end) (map_to_list (fs w)).

(** Two captures an hour apart, and two within one second, of different
    scenes. *)
Definition hour_later_env : Env :=
  with_clock (fun k => mk_time 2016 3 14 10 26 (50 + N.of_nat k))
    (with_scene 2 pi_env).


Definition same_second_captures : list Invocation :=
  [mk_inv (with_scene 1 pi_env) 3 [py]; mk_inv (with_scene 2 pi_env) 3 [py]].



(** ** What a capture does to the files *)


(** ** The console *)

(** The lines a run prints when nothing fails, read off the [print]
    statements of the command it runs. *)
Definition console (argv : list string) : list string :=
  if (length argv =? 3)%nat then
    ((if String.eqb (argv_at argv 1) "Initialize"
      then ["Initializing..."; "Taking Photo"; "Initialized"] else []) ++
     (if String.eqb (argv_at argv 1) "TimeCourse"
      then ["Scheduling CRON Job"; "Taking Photo"; "Time Course Active"]
      else []))%list
  else if (length argv =? 2)%nat then
    (if String.eqb (argv_at argv 1) "End"
     then ["Ending Time Course"; "Done"] else [])
  else ["Taking Photo"].

(** A crontab library that rejects the interval, and a camera that does not
    open. *)
Definition with_every_ok (b : bool) (e : Env) : Env :=
  mk_env (workdir e) (script e) (clock e) (gains e) (awb_auto e) (scene e)
    (camera_opens e) (capture_ok e) (makedirs_ok e) b.


(** The scheduled session after two cron ticks. *)
Definition ticked_world : World :=
  Eval vm_compute in
    match session same_second_captures scheduled_world with
    | Some w => w
    | None => blank_world
    end.

(** A capture that stops at the [open] of the store file [name]: nothing
    has been written or pushed, and the illumination is on. *)
Definition missing_file_failure (env : Env) (fuel : nat) (prog : string)
    (w : World) (name : string) : Prop :=
  exists w',
    run env fuel [prog] w = Some (Raised (IOError (store_file env name)) w') /\
    fs w' = fs w /\ shell w' = shell w /\ actuator_on w'.

(** The initialised session with the white-balance file removed. *)
Definition damaged_world : World :=
  Eval vm_compute in
    set_fs (delete "/home/pi/awb_gain.p" (fs ready_world)) ready_world.


(** ** Files a capture does not read *)





(** * Proofs *)

Local Arguments String.append : simpl never.
Local Arguments resolve : simpl never.
Local Arguments getcwd : simpl never.
Local Arguments store_file : simpl never.
Local Arguments strftime : simpl never.
Local Arguments basename : simpl never.
Local Arguments os_path_join : simpl never.

(** ** Strings and paths *)

Lemma append_cons (c : ascii) (a b : string) :
  String c a +:+ b = String c (a +:+ b).
Proof. reflexivity. Qed.

Lemma append_nil_l (b : string) : EmptyString +:+ b = b.
Proof. reflexivity. Qed.

Lemma append_assoc (a b c : string) : (a +:+ b) +:+ c = a +:+ (b +:+ c).
Proof.
  induction a as [|x a IH]; [reflexivity|].
  rewrite !append_cons. f_equal. apply IH.
Qed.

Lemma append_inj_l (a x y : string) : a +:+ x = a +:+ y -> x = y.
Proof.
  induction a as [|c a IH]; [auto|].
  rewrite !append_cons. intros H. injection H. auto.
Qed.

Lemma last_char_cons (c d : ascii) (r : string) :
  last_char (String c (String d r)) = last_char (String d r).
Proof. reflexivity. Qed.

Lemma last_char_app (a b : string) :
  b <> EmptyString -> last_char (a +:+ b) = last_char b.
Proof.
  intros Hb. induction a as [|d a IH]; [reflexivity|].
  rewrite append_cons.
  destruct (a +:+ b) as [|e r] eqn:E.
  - destruct a; [rewrite append_nil_l in E; contradiction | discriminate E].
  - rewrite last_char_cons. exact IH.
Qed.

Lemma last_char_basename (p : string) :
  p <> EmptyString -> last_char p <> "/"%char ->
  basename p <> EmptyString /\ last_char (basename p) = last_char p.
Proof.
  induction p as [|c r IH]; [congruence|]. intros _ Hl.
  unfold basename; fold basename.
  destruct (has_slash r) eqn:Hs.
  - destruct r as [|d r']; [discriminate Hs|].
    rewrite last_char_cons in *. apply IH; [discriminate | exact Hl].
  - destruct (Ascii.eqb c "/") eqn:Hc.
    + destruct r as [|d r'].
      * apply Ascii.eqb_eq in Hc. subst c. exfalso. apply Hl. reflexivity.
      * split; [discriminate | reflexivity].
    + split; [discriminate | reflexivity].
Qed.

Lemma resolve_abs (env : Env) (x : string) :
  resolve env (getcwd env +:+ x) = getcwd env +:+ x.
Proof. reflexivity. Qed.

Lemma resolve_cd (env : Env) (n : string) :
  resolve env ((getcwd env +:+ "/") +:+ n) = store_file env n.
Proof. unfold store_file. rewrite append_assoc. apply resolve_abs. Qed.

Lemma resolve_store_file (env : Env) (n : string) :
  resolve env (store_file env n) = store_file env n.
Proof. apply resolve_abs. Qed.

Lemma resolve_cases (env : Env) (x : string) :
  resolve env x = x \/ resolve env x = store_file env x.
Proof.
  unfold resolve, store_file. destruct x as [|c r]; [right; reflexivity|].
  destruct c as [[] [] [] [] [] [] [] []]; auto.
Qed.

Lemma last_char_resolve (env : Env) (x : string) :
  x <> EmptyString -> last_char (resolve env x) = last_char x.
Proof.
  intros Hx. destruct (resolve_cases env x) as [-> | ->]; [reflexivity|].
  unfold store_file. rewrite <- append_assoc. apply last_char_app, Hx.
Qed.

Lemma last_char_store_file (env : Env) (n : string) :
  n <> EmptyString -> last_char (store_file env n) = last_char n.
Proof.
  intros Hn. unfold store_file. rewrite <- append_assoc.
  apply last_char_app, Hn.
Qed.

Lemma append_not_nil_r (a b : string) : b <> EmptyString -> a +:+ b <> EmptyString.
Proof. destruct a; [auto | discriminate]. Qed.

Lemma last_char_join (a b : string) :
  b <> EmptyString -> last_char (os_path_join a b) = last_char b.
Proof.
  intros Hb. unfold os_path_join.
  destruct (ends_with_slash a); [apply last_char_app, Hb|].
  destruct a; [reflexivity|].
  rewrite <- append_assoc. apply last_char_app, Hb.
Qed.

Lemma store_file_inj (env : Env) (a b : string) :
  store_file env a = store_file env b -> a = b.
Proof.
  unfold store_file. intros H. apply append_inj_l in H.
  apply (append_inj_l "/") in H. exact H.
Qed.

(** ** Symbolic execution *)

Ltac destruct_inner x :=
  lazymatch x with
  | context [match ?y with _ => _ end] => destruct_inner y
  | _ => destruct x eqn:?
  end.

Ltac exec_step :=
  match goal with
  | |- context [match ?x with _ => _ end] => destruct_inner x
  end.

Ltac unfold_prims :=
  unfold bind, ret, raise, PiCamera_open, pickle_load, pickle_dump, as_int,
    as_str, as_gains, wait_for_gains, get_world, time_strftime,
    camera_capture, shutil_move, os_system, modify_world, set_world,
    os_path_exists, os_makedirs, print in *.

Ltac exec := repeat (cbn; try exec_step); cbn; rewrite ?resolve_cd in *.

Lemma is_dir_false (o : option Node) : is_dir o = false <-> o <> Some Dir.
Proof. destruct o as [[]|]; simpl; split; congruence. Qed.


Lemma png_frame_refl (w : World) : png_frame w w.
Proof. unfold png_frame. tauto. Qed.

Lemma png_frame_trans (a b c : World) :
  png_frame a b -> png_frame b c -> png_frame a c.
Proof.
  unfold png_frame. intros (Ea1&Ea2&Ea3&H1&H2) (Eb1&Eb2&Eb3&H3&H4).
  repeat split; try congruence.
  - intros p Hp. rewrite H3, H1; auto.
  - intros Hc. apply H2, H4, Hc.
  - intros Ha. apply H4, H2, Ha.
Qed.

Lemma png_frame_shell (w : World) (c : list string) :
  png_frame w (set_shell c w).
Proof. unfold png_frame. simpl. tauto. Qed.

(** Writing a file at a path ending in [g] that holds no directory. *)
Lemma png_frame_insert (w : World) (k : string) (i : Image) :
  last_char k = "g"%char -> is_dir (fs w !! k) = false ->
  png_frame w (set_fs (<[k := Png i]> (fs w)) w).
Proof.
  intros Hk Hd. apply is_dir_false in Hd.
  unfold png_frame. simpl. repeat split; auto.
  - intros p Hp. apply lookup_insert_ne. congruence.
  - destruct (decide (k = p)) as [->|Hne].
    + rewrite lookup_insert_eq. discriminate.
    + rewrite lookup_insert_ne; auto.
  - destruct (decide (k = p)) as [->|Hne]; [contradiction|].
    rewrite lookup_insert_ne; auto.
Qed.

(** Renaming an image from a path ending in [g] to a free or file path
    ending in [g]. *)
Lemma png_frame_move (w : World) (a b : string) (i : Image) :
  last_char a = "g"%char -> last_char b = "g"%char ->
  fs w !! a = Some (Png i) -> is_dir (fs w !! b) = false ->
  png_frame w (set_fs (<[b := Png i]> (delete a (fs w))) w).
Proof.
  intros Ha Hb Hi Hd. apply is_dir_false in Hd.
  unfold png_frame. simpl. repeat split; auto.
  - intros p Hp. rewrite lookup_insert_ne, lookup_delete_ne; congruence.
  - destruct (decide (b = p)) as [->|Hne].
    + rewrite lookup_insert_eq. discriminate.
    + rewrite lookup_insert_ne by auto.
      destruct (decide (a = p)) as [->|Hne'].
      * rewrite lookup_delete_eq. discriminate.
      * rewrite lookup_delete_ne; auto.
  - intros Hp. destruct (decide (b = p)) as [->|Hne]; [contradiction|].
    rewrite lookup_insert_ne by auto.
    destruct (decide (a = p)) as [->|Hne']; [congruence|].
    rewrite lookup_delete_ne; auto.
Qed.

Lemma last_char_png (a b : string) : last_char (a +:+ b +:+ ".png") = "g"%char.
Proof.
  rewrite !last_char_app;
    [reflexivity | discriminate | apply append_not_nil_r; discriminate].
Qed.

Lemma last_char_filename (env : Env) (x : string) :
  last_char (store_file env (x +:+ ".png")) = "g"%char.
Proof.
  rewrite last_char_store_file by (apply append_not_nil_r; discriminate).
  apply last_char_app. discriminate.
Qed.

Lemma last_char_destination (env : Env) (a x : string) :
  last_char (resolve env (a +:+ x +:+ ".png")) = "g"%char.
Proof.
  rewrite last_char_resolve
    by (apply append_not_nil_r, append_not_nil_r; discriminate).
  apply last_char_png.
Qed.

Lemma last_char_real_dst (env : Env) (d x : string) :
  last_char (os_path_join d (basename ((getcwd env +:+ "/") +:+ x +:+ ".png")))
  = "g"%char.
Proof.
  destruct (last_char_basename ((getcwd env +:+ "/") +:+ x +:+ ".png"))
    as [Hn Hl].
  - apply append_not_nil_r, append_not_nil_r. discriminate.
  - rewrite last_char_png. discriminate.
  - rewrite last_char_join by exact Hn. rewrite Hl. apply last_char_png.
Qed.

Lemma set_fs_id (w : World) : set_fs (fs w) w = w.
Proof. destruct w; reflexivity. Qed.

Ltac fs_facts :=
  repeat match goal with
  | H : <[?k := ?v]> _ !! ?k = Some _ |- _ =>
      rewrite lookup_insert_eq in H; injection H as <-
  | H : <[?k := ?v]> _ !! ?k = None |- _ =>
      rewrite lookup_insert_eq in H; discriminate H
  | H : ?n = Dir |- _ => subst n
  | H : ?n = Pickle _ |- _ => subst n
  | H : ?n = Png _ |- _ => subst n
  | H : ?v = PyInt _ |- _ => subst v
  | H : ?v = PyStr _ |- _ => subst v
  | H : ?v = PyGains _ |- _ => subst v
  | H : ?v = PyFraction _ |- _ => subst v
  end.

Ltac last_g :=
  first [ apply last_char_filename | apply last_char_destination
        | apply last_char_real_dst ].

Ltac frame_solve :=
  repeat match goal with
  | |- _ /\ _ => split; [| reflexivity]
  | |- png_frame ?w ?w => apply png_frame_refl
  | |- png_frame _ (set_shell _ _) =>
      eapply png_frame_trans; [| apply png_frame_shell]
  | |- png_frame _ (set_fs (<[?b := Png ?i]> (delete ?a _)) ?W) =>
      eapply png_frame_trans;
      [| apply (png_frame_move W a b i);
         [ last_g | last_g | apply lookup_insert_eq
         | first [assumption | cbn; match goal with
                                    | H : _ = None |- _ => rewrite H; reflexivity
                                    end] ] ]
  | |- png_frame ?w (set_fs (<[?k := Png ?i]> _) ?w) =>
      apply (png_frame_insert w k i); [last_g | assumption]
  end.

Lemma continuous_capture_frame (env : Env) (fuel : nat) (s : Proc) :
  match continuous_capture env fuel s with
  | Ok _ s' => png_frame (world s) (world s')
  | Raise e s' => png_frame (world s) (world s') /\ camera_exn e = true
  | Hang => True
  end.
Proof.
  unfold continuous_capture. unfold_prims.
  exec; auto using png_frame_refl.
  all: destruct s as [w ? ? ?]; cbn in *; fs_facts; frame_solve.
Qed.

(** ** The polling loop *)

Lemma loop_test (g : Q * Q) (c : PiCamera) :
  negb (Qeq_bool (analog_gain (set_gains g c)) 1)
  || negb (Qeq_bool (digital_gain (set_gains g c)) 1) = negb (settled g).
Proof. unfold settled. simpl. rewrite negb_andb. reflexivity. Qed.

Lemma set_gains_twice (g h : Q * Q) (c : PiCamera) :
  set_gains h (set_gains g c) = set_gains h c.
Proof. reflexivity. Qed.

(** When the loop exits, it has just read settled gains, at the first poll
    that reported them, and the camera holds those gains. *)
Lemma poll_gains_some (env : Env) (n k : nat) (c c' : PiCamera) :
  poll_gains env n k c = Some c' ->
  exists j, (k <= j < k + n)%nat /\ settled (gains env j) = true /\
            c' = set_gains (gains env j) c /\
            forall i, (k <= i < j)%nat -> settled (gains env i) = false.
Proof.
  revert k c. induction n as [|n IH]; intros k c H; [discriminate H|].
  cbn [poll_gains] in H. rewrite loop_test in H.
  destruct (settled (gains env k)) eqn:Hs; cbn [negb] in H.
  - injection H as <-. exists k. repeat split; try lia; auto.
  - apply IH in H. destruct H as (j & Hj & Hsj & -> & Hbefore).
    exists j. repeat split; try lia; auto.
    intros i Hi. destruct (Nat.eq_dec i k) as [->|Hne]; [exact Hs|].
    apply Hbefore. lia.
Qed.

Lemma poll_gains_enough (env : Env) (n k j : nat) (c : PiCamera) :
  settled (gains env j) = true -> (k <= j < k + n)%nat ->
  exists c', poll_gains env n k c = Some c'.
Proof.
  intros Hs. revert k c. induction n as [|n IH]; intros k c Hj; [lia|].
  cbn [poll_gains]. rewrite loop_test.
  destruct (settled (gains env k)) eqn:Hk; cbn [negb]; [eauto|].
  apply IH. destruct (Nat.eq_dec j k) as [->|Hne]; [congruence | lia].
Qed.

Lemma poll_gains_never (env : Env) (n k : nat) (c : PiCamera) :
  (forall j, settled (gains env j) = false) -> poll_gains env n k c = None.
Proof.
  intros Hs. revert k c. induction n as [|n IH]; intros k c; [reflexivity|].
  cbn [poll_gains]. rewrite loop_test, Hs. cbn [negb]. apply IH.
Qed.

(** Whether the loop exits does not depend on the camera it started with. *)
Lemma poll_gains_none_any (env : Env) (n k : nat) (c d : PiCamera) :
  poll_gains env n k c = None -> poll_gains env n k d = None.
Proof.
  revert k c d. induction n as [|n IH]; intros k c d H; [reflexivity|].
  cbn [poll_gains] in *. rewrite loop_test in *.
  destruct (settled (gains env k)); cbn [negb] in *; [discriminate H|].
  eapply IH, H.
Qed.

(** ** [continuous_capture] *)

Lemma load_inv (env : Env) (w : World) (p : CalibrationProfile) (path : string) :
  load env w = Some (p, path) ->
  fs w !! store_file env "iso.p" = Some (Pickle (PyInt (sensitivity p))) /\
  fs w !! store_file env "shutter_speed.p"
    = Some (Pickle (PyInt (exposureDurationMicros p))) /\
  fs w !! store_file env "awb_gain.p"
    = Some (Pickle (PyGains (whiteBalanceGains p))) /\
  fs w !! store_file env "path.p" = Some (Pickle (PyStr path)).
Proof.
  unfold load. intros H.
  repeat match type of H with
         | match ?x with _ => _ end = _ => destruct x; try discriminate H
         end.
  injection H as <- <-. auto.
Qed.

Lemma is_dir_insert_file (m : gmap string Node) (k k' : string) (n : Node) :
  n <> Dir -> is_dir (m !! k') = false -> is_dir (<[k := n]> m !! k') = false.
Proof.
  intros Hn Hd. destruct (decide (k = k')) as [->|Hne].
  - rewrite lookup_insert_eq. destruct n; [contradiction | reflexivity..].
  - rewrite lookup_insert_ne; auto.
Qed.

(** A capture from an initialised store, with a working camera, goes
    through: the frame is written under the first time stamp in the working
    directory and renamed to the second time stamp in the output
    directory. *)
Lemma continuous_capture_ok (env : Env) (fuel : nat) (s : Proc)
    (p : CalibrationProfile) (path : string) (c : PiCamera) :
  let w := world s in
  let t0 := clock env (clock_reads s) in
  let t1 := clock env (S (clock_reads s)) in
  let img := frame_of env p c in
  camera_opens env = true -> capture_ok env = true ->
  load env w = Some (p, path) ->
  poll_gains env fuel 0 (capture_camera p) = Some c ->
  is_dir (fs w !! capture_filename env t0) = false ->
  is_dir (fs w !! capture_destination env path t1) = false ->
  continuous_capture env fuel s =
  Ok tt (mk_proc
           (set_shell (shell w ++ [drive_push +:+ path])
              (set_fs (<[capture_destination env path t1 := Png img]>
                         (delete (capture_filename env t0)
                            (<[capture_filename env t0 := Png img]> (fs w))))
                      w))
           (S (S (clock_reads s))) (cron_objs s) (CronTimeSetting s)).
Proof.
  intros w t0 t1 img Hcam Hcap Hload Hpoll Hf Hd.
  apply load_inv in Hload. destruct Hload as (Hi & He & Hg & Hp).
  subst w t0 t1 img. destruct s as [w r o g]. cbn [world clock_reads cron_objs CronTimeSetting] in *.
  unfold capture_filename, capture_destination, stamp, capture_camera in *.
  unfold continuous_capture. unfold_prims. rewrite Hcam, Hcap.
  cbn. rewrite ?resolve_cd. rewrite Hi. cbn. rewrite He. cbn.
  rewrite Hpoll. cbn. rewrite Hg. cbn. rewrite Hp. cbn.
  rewrite ?resolve_cd. rewrite Hf. cbn.
  rewrite lookup_insert_eq.
  rewrite is_dir_insert_file by (discriminate || exact Hd).
  reflexivity.
Qed.

(** The capture hangs exactly when it reaches the polling loop and the loop
    does not exit. *)
Lemma continuous_capture_hangs (env : Env) (fuel : nat) (s : Proc) :
  continuous_capture env fuel s = Hang ->
  poll_gains env fuel 0 fresh_camera = None.
Proof.
  unfold continuous_capture. unfold_prims. exec; try discriminate.
  intros _. eapply poll_gains_none_any. eassumption.
Qed.

Lemma continuous_capture_polls (env : Env) (fuel : nat) (s : Proc) (i e : Z) :
  camera_opens env = true ->
  fs (world s) !! store_file env "iso.p" = Some (Pickle (PyInt i)) ->
  fs (world s) !! store_file env "shutter_speed.p" = Some (Pickle (PyInt e)) ->
  poll_gains env fuel 0 fresh_camera = None ->
  continuous_capture env fuel s = Hang.
Proof.
  intros Hcam Hi He Hpoll.
  unfold continuous_capture. unfold_prims. rewrite Hcam.
  cbn. rewrite ?resolve_cd. rewrite Hi. cbn. rewrite He. cbn.
  erewrite poll_gains_none_any by exact Hpoll. reflexivity.
Qed.

(** A capture that returns has seen the loop exit. *)
Lemma continuous_capture_returned (env : Env) (fuel : nat) (s s' : Proc) :
  continuous_capture env fuel s = Ok tt s' ->
  exists c c', poll_gains env fuel 0 c = Some c'.
Proof.
  unfold continuous_capture. unfold_prims. exec; try discriminate.
  all: intros _; eauto.
Qed.

(** Without the first store file the capture stops at once. *)
Lemma continuous_capture_no_store (env : Env) (fuel : nat) (s : Proc) :
  fs (world s) !! store_file env "iso.p" = None ->
  continuous_capture env fuel s =
  Raise (if camera_opens env then IOError (store_file env "iso.p")
         else PiCameraError) s.
Proof.
  intros Hi. unfold continuous_capture. unfold_prims.
  destruct (camera_opens env); cbn; [|reflexivity].
  rewrite ?resolve_cd. rewrite Hi. reflexivity.
Qed.

(** ** [initialize_camera] *)

Lemma init_frame_refl (w : World) : init_frame w w.
Proof. unfold init_frame. tauto. Qed.

Lemma init_frame_trans (a b c : World) :
  init_frame a b -> init_frame b c -> init_frame a c.
Proof.
  unfold init_frame. intros (Ea1&Ea2&Ea3&H1) (Eb1&Eb2&Eb3&H2).
  repeat split; try congruence.
  - intros Hc. apply H1, H2, Hc.
  - intros Ha. apply H2, H1, Ha.
Qed.

Lemma init_frame_shell (w : World) (c : list string) :
  init_frame w (set_shell c w).
Proof. unfold init_frame. simpl. tauto. Qed.

Lemma init_frame_insert (w : World) (k : string) (n : Node) :
  n <> Dir -> is_dir (fs w !! k) = false ->
  init_frame w (set_fs (<[k := n]> (fs w)) w).
Proof.
  intros Hn Hd. apply is_dir_false in Hd.
  unfold init_frame. simpl. repeat split; auto.
  - destruct (decide (k = p)) as [->|Hne].
    + rewrite lookup_insert_eq. congruence.
    + rewrite lookup_insert_ne; auto.
  - destruct (decide (k = p)) as [->|Hne]; [contradiction|].
    rewrite lookup_insert_ne; auto.
Qed.

Lemma init_frame_move (w : World) (a b : string) (n : Node) :
  n <> Dir -> fs w !! a = Some n -> is_dir (fs w !! b) = false ->
  init_frame w (set_fs (<[b := n]> (delete a (fs w))) w).
Proof.
  intros Hn Ha Hd. apply is_dir_false in Hd.
  unfold init_frame. simpl. repeat split; auto.
  - destruct (decide (b = p)) as [->|Hne].
    + rewrite lookup_insert_eq. congruence.
    + rewrite lookup_insert_ne by auto.
      destruct (decide (a = p)) as [->|Hne'].
      * rewrite lookup_delete_eq. discriminate.
      * rewrite lookup_delete_ne; auto.
  - intros Hp. destruct (decide (b = p)) as [->|Hne]; [contradiction|].
    rewrite lookup_insert_ne by auto.
    destruct (decide (a = p)) as [->|Hne']; [congruence|].
    rewrite lookup_delete_ne; auto.
Qed.

Lemma png_frame_init_frame (w w' : World) : png_frame w w' -> init_frame w w'.
Proof. unfold png_frame, init_frame. tauto. Qed.

Lemma is_dir_none (m : gmap string Node) (k : string) :
  m !! k = None -> is_dir (m !! k) = false.
Proof. intros ->. reflexivity. Qed.

Ltac resolve_literals :=
  repeat match goal with
  | |- context [resolve ?e (String ?c ?r)] =>
      change (resolve e (String c r)) with (store_file e (String c r))
  | H : context [resolve ?e (String ?c ?r)] |- _ =>
      change (resolve e (String c r)) with (store_file e (String c r)) in H
  end.

Ltac init_frame_solve :=
  repeat match goal with
  | |- _ /\ _ => split; [| reflexivity]
  | |- init_frame ?w ?w => apply init_frame_refl
  | |- init_frame _ (set_shell _ _) =>
      eapply init_frame_trans; [| apply init_frame_shell]
  | |- init_frame _ (set_fs (<[?b := ?n]> (delete ?a _)) ?W) =>
      eapply init_frame_trans;
      [| apply (init_frame_move W a b n);
         [ discriminate | apply lookup_insert_eq
         | first [assumption | apply is_dir_none; assumption] ] ]
  | |- init_frame _ (set_fs (<[?k := ?n]> _) ?W) =>
      eapply init_frame_trans;
      [| apply (init_frame_insert W k n); [discriminate | assumption] ]
  end.

Lemma initialize_camera_frame (env : Env) (fuel : nat) (s : Proc) :
  match initialize_camera env fuel s with
  | Ok _ s' => init_frame (world s) (world s')
  | Raise e s' => init_frame (world s) (world s') /\ camera_exn e = true
  | Hang => True
  end.
Proof.
  unfold initialize_camera. unfold_prims.
  exec; auto using init_frame_refl.
  all: destruct s as [w ? ? ?]; cbn in *; resolve_literals; fs_facts.
  all: init_frame_solve.
Qed.

Lemma last_char_initial_dst (env : Env) (a : string) :
  last_char (resolve env (a +:+ "Initial.png")) = "g"%char.
Proof. exact (last_char_destination env a "Initial"). Qed.

Lemma last_char_initial_real_dst (env : Env) (d : string) :
  last_char (os_path_join d (basename ((getcwd env +:+ "/") +:+ "Initial.png")))
  = "g"%char.
Proof. exact (last_char_real_dst env d "Initial"). Qed.

Ltac key_ne :=
  let E := fresh "E" in
  intros E;
  first
    [ apply store_file_inj in E; discriminate E
    | apply (f_equal last_char) in E;
      rewrite ?last_char_initial_dst, ?last_char_initial_real_dst,
        ?last_char_filename, ?last_char_destination, ?last_char_real_dst in E;
      rewrite ?last_char_store_file in E by discriminate;
      cbn in E; discriminate E ].

Ltac lookup_solve :=
  repeat first
    [ rewrite lookup_insert_eq
    | rewrite lookup_insert_ne by key_ne
    | rewrite lookup_delete_ne by key_ne ].

Ltac lookup_norm_in H :=
  repeat first
    [ rewrite lookup_insert_eq in H
    | rewrite lookup_insert_ne in H by key_ne
    | rewrite lookup_delete_ne in H by key_ne ].

(** Polling changes nothing of the camera but the gains it reports. *)
Lemma poll_gains_keeps (env : Env) (n k : nat) (c c' : PiCamera) :
  poll_gains env n k c = Some c' ->
  resolution c' = resolution c /\ iso c' = iso c /\
  shutter_speed c' = shutter_speed c /\ awb_mode c' = awb_mode c /\
  awb_gains c' = awb_gains c /\
  settled (analog_gain c', digital_gain c') = true.
Proof.
  intros H. apply poll_gains_some in H.
  destruct H as (j & _ & Hs & -> & _). cbn.
  destruct (gains env j). repeat split; auto.
Qed.

(** What a completed calibration pass leaves: the polling loop exited with
    some frozen gains, the sentinel frame taken with the calibration profile
    is on disk, the five settings are saved, and [path.p] is as it was. *)
Lemma initialize_camera_returned (env : Env) (fuel : nat) (s s' : Proc) :
  initialize_camera env fuel s = Ok tt s' ->
  exists c path,
    poll_gains env fuel 0 (capture_camera calibration_profile) = Some c /\
    fs (world s) !! store_file env "path.p" = Some (Pickle (PyStr path)) /\
    fs (world s') !! store_file env "path.p" = Some (Pickle (PyStr path)) /\
    fs (world s') !! store_file env "iso.p" = Some (Pickle (PyInt 100)) /\
    fs (world s') !! store_file env "shutter_speed.p"
      = Some (Pickle (PyInt 1000000)) /\
    fs (world s') !! store_file env "awb_gain.p"
      = Some (Pickle (PyGains (3 # 2, 3 # 2))) /\
    fs (world s') !! store_file env "analog_gain.p"
      = Some (Pickle (PyFraction (analog_gain c))) /\
    fs (world s') !! store_file env "digital_gain.p"
      = Some (Pickle (PyFraction (digital_gain c))) /\
    (exists p, fs (world s') !! p
                 = Some (Png (frame_of env calibration_profile c))) /\
    shell (world s') = (shell (world s) ++ [drive_push +:+ path])%list.
Proof.
  unfold initialize_camera. unfold_prims.
  exec; try discriminate.
  all: intros H; injection H as <-.
  all: destruct s as [w ? ? ?]; cbn in *; resolve_literals; fs_facts.
  all: match goal with
       | H : poll_gains _ _ _ _ = Some ?c,
         P : _ !! store_file _ "path.p" = Some (Pickle (PyStr ?path)) |- _ =>
           lookup_norm_in P; exists c, path;
           destruct (poll_gains_keeps _ _ _ _ _ H) as (_ & Hiso & Hsh & _);
           cbn in Hiso, Hsh; rewrite ?Hiso, ?Hsh
       end.
  all: repeat split; lookup_solve; try assumption; try reflexivity.
  all: match goal with
       | |- context [<[?k := Png _]> (delete _ _)] => exists k
       end; lookup_solve; reflexivity.
Qed.

Lemma initialize_camera_hangs (env : Env) (fuel : nat) (s : Proc) :
  initialize_camera env fuel s = Hang ->
  poll_gains env fuel 0 fresh_camera = None.
Proof.
  unfold initialize_camera. unfold_prims. exec; try discriminate.
  intros _. eapply poll_gains_none_any. eassumption.
Qed.

Lemma initialize_camera_polls (env : Env) (fuel : nat) (s : Proc) :
  camera_opens env = true ->
  poll_gains env fuel 0 fresh_camera = None ->
  initialize_camera env fuel s = Hang.
Proof.
  intros Hcam Hpoll.
  unfold initialize_camera. unfold_prims. rewrite Hcam. cbn.
  erewrite poll_gains_none_any by exact Hpoll. reflexivity.
Qed.

(** ** [begin_CRON] *)

Lemma alter_last {A} (f : A -> A) (l : list A) (x : A) :
  alter f (length l) (l ++ [x])%list = (l ++ [f x])%list.
Proof. induction l as [|a l IH]; [reflexivity|]. cbn. f_equal. exact IH. Qed.

(** From a fresh process, [begin_CRON] installs the crontab it read with one
    more line for this program. *)
Lemma begin_CRON_ok (env : Env) (w : World) (r : nat) (v : string) :
  every_ok env = true ->
  begin_CRON env (mk_proc w r [] (Some v)) =
  Ok tt (mk_proc
           (set_crontab
              (crontab w ++ [new_entry env (strftime "%M" (clock env r)) v])%list
              w)
           (S r)
           [(crontab w ++ [new_entry env (strftime "%M" (clock env r)) v])%list]
           (Some v)).
Proof.
  intros Hev. unfold begin_CRON, job_minute_every, job_minute_on, job_enable,
    job_alter, cron_new, cron_write, cron_lines, cron_set_lines, CronTab,
    get_CronTimeSetting, set_cron_objs.
  unfold_prims. rewrite Hev. cbn.
  rewrite !alter_last. reflexivity.
Qed.

Lemma begin_CRON_refused (env : Env) (w : World) (r : nat) (v : string) :
  every_ok env = false ->
  exists s', begin_CRON env (mk_proc w r [] (Some v)) = Raise ValueError s' /\
             world s' = w.
Proof.
  intros Hev. unfold begin_CRON, job_minute_every, job_minute_on, job_enable,
    job_alter, cron_new, cron_write, cron_lines, cron_set_lines, CronTab,
    get_CronTimeSetting, set_cron_objs.
  unfold_prims. rewrite Hev. cbn. eauto.
Qed.

(** ** Whole runs *)

Local Arguments initialize_camera : simpl never.
Local Arguments continuous_capture : simpl never.
Local Arguments begin_CRON : simpl never.

Ltac unfold_main :=
  unfold run, main, init_GPIO, LED_ON, LED_OFF, GPIO_setmode,
    GPIO_setwarnings, GPIO_setup_out, GPIO_output, GPIO_cleanup,
    set_CronTimeSetting, cron_remove_all, cron_write, cron_lines,
    cron_set_lines, CronTab, set_cron_objs in *;
  unfold_prims.

Lemma begin_CRON_cases (env : Env) (w : World) (r : nat) (v : string) :
  match begin_CRON env (mk_proc w r [] (Some v)) with
  | Ok _ s' =>
      every_ok env = true /\
      world s' =
      set_crontab
        (crontab w ++ [new_entry env (strftime "%M" (clock env r)) v])%list w
  | Raise e s' => every_ok env = false /\ e = ValueError /\ world s' = w
  | Hang => False
  end.
Proof.
  destruct (every_ok env) eqn:Hev.
  - rewrite begin_CRON_ok by exact Hev. auto.
  - destruct (begin_CRON_refused env w r v Hev) as (s' & -> & Hw). auto.
Qed.

(** The frame facts of the three calls that stay folded during symbolic
    execution. *)
Ltac use_frames :=
  repeat match goal with
  | H : initialize_camera ?e ?f ?s = _ |- _ =>
      let F := fresh "F" in
      pose proof (initialize_camera_frame e f s) as F; rewrite H in F;
      cbn in F; revert H
  | H : continuous_capture ?e ?f ?s = _ |- _ =>
      let F := fresh "F" in
      pose proof (continuous_capture_frame e f s) as F; rewrite H in F;
      cbn in F; revert H
  | H : begin_CRON ?e (mk_proc ?w ?r [] (Some ?v)) = _ |- _ =>
      let F := fresh "F" in
      pose proof (begin_CRON_cases e w r v) as F; rewrite H in F;
      cbn in F; revert H
  end; intros.

Ltac frame_facts :=
  repeat match goal with
  | F : init_frame _ _ |- _ => destruct F as (? & ? & ? & ?)
  | F : png_frame _ _ |- _ => destruct F as (? & ? & ? & ? & ?)
  | F : _ /\ _ |- _ => destruct F
  end.

(** [sys.argv[1]] is one command at most. *)
Ltac both_commands :=
  match goal with
  | H1 : (?x =? "Initialize") = true, H2 : (?x =? "TimeCourse") = true |- _ =>
      apply String.eqb_eq in H1; apply String.eqb_eq in H2;
      rewrite H1 in H2; discriminate H2
  end.


Lemma run_unfold (env : Env) (fuel : nat) (argv : list string) (w : World) :
  run env fuel argv w =
  match main env fuel argv (mk_proc w 0 [] None) with
  | Ok _ s => Some (Returned (world s))
  | Raise e s => Some (Raised e (world s))
  | Hang => None
  end.
Proof. reflexivity. Qed.




(** C2 (as amended).  [Capture()] on a store without any save raises at the
    first [pickle.load] (or at the camera, if it does not open), writes no
    file and leaves the crontab and the shell alone; but [LED_ON] has run
    before the store is read, so the invocation ends with the illumination
    on. *)
Theorem capture_without_store (env : Env) (fuel : nat) (prog : string)
    (w : World) :
  store_empty env w ->
  exists w',
    run env fuel [prog] w
    = Some (Raised (if camera_opens env
                    then IOError (store_file env "iso.p")
                    else PiCameraError) w') /\
    fs w' = fs w /\ crontab w' = crontab w /\ shell w' = shell w /\
    actuator_on w'.
Proof.
  intros Hs. apply Forall_cons in Hs. destruct Hs as [Hiso _].
  eexists. unfold_main. cbn.
  rewrite continuous_capture_no_store by exact Hiso.
  cbn. repeat split.
Qed.

Lemma capture_without_store_witness :
  exists w',
    run pi_env 0 [py] blank_world
    = Some (Raised (IOError "/home/pi/iso.p") w') /\
    fs w' = fs blank_world /\ crontab w' = crontab blank_world /\
    shell w' = shell blank_world /\ actuator_on w'.
Proof.
  apply (capture_without_store pi_env 0 py blank_world).
  unfold store_empty, store_names. repeat constructor.
Defined.

(** C2, as stated, fails: the failing invocation changes the actuator. *)
Lemma capture_without_store_switches_led :
  store_empty pi_env blank_world /\
  exists e w', run pi_env 0 [py] blank_world = Some (Raised e w') /\
               pin12 w' <> pin12 blank_world.
Proof.
  split; [unfold store_empty, store_names; repeat constructor|].
  eexists _, _. split; [vm_compute; reflexivity | discriminate].
Qed.


(** After [TimeCourse 60] and [End], the trigger entry is still installed. *)
Lemma end_keeps_trigger_entry :
  length (trigger_entries pi_env scheduled_world) = 1%nat /\
  length (trigger_entries pi_env
            (world_after (run pi_env 3 [py; "End"] scheduled_world))) = 1%nat.
Proof. split; vm_compute; reflexivity. Qed.

(** C10.  One argument that is not [End]: the pin is set up and released and
    nothing else happens; the invocation returns, silently. *)
Theorem unknown_command_is_silent (env : Env) (fuel : nat) (prog a : string)
    (w : World) :
  a <> "End" ->
  exists w',
    run env fuel [prog; a] w = Some (Returned w') /\
    fs w' = fs w /\ crontab w' = crontab w /\ stdout w' = stdout w /\
    shell w' = shell w /\ pin12 w' = Input.
Proof.
  intros Ha. apply String.eqb_neq in Ha.
  eexists. unfold_main. cbn [length Nat.eqb argv_at nth].
  rewrite Ha. cbn. repeat split.
Qed.

Lemma unknown_command_is_silent_witness :
  exists w',
    run pi_env 0 [py; "Ende"] ready_world = Some (Returned w') /\
    fs w' = fs ready_world /\ crontab w' = crontab ready_world /\
    stdout w' = stdout ready_world /\ shell w' = shell ready_world /\
    pin12 w' = Input.
Proof.
  apply (unknown_command_is_silent pi_env 0 py "Ende" ready_world).
  discriminate.
Defined.

(** ** The scheduler *)







(** ** The [Initialize] transition *)

Lemma store_file_abs (env : Env) (name x : string) :
  resolve env (store_file env name +:+ x) = store_file env name +:+ x.
Proof. unfold store_file. rewrite !append_assoc. apply resolve_abs. Qed.

Lemma resolve_path (env : Env) (name : string) :
  resolve env (getcwd env +:+ "/" +:+ name) = store_file env name.
Proof. apply resolve_abs. Qed.

(** What an [Initialize] that returns has left behind. *)
Lemma initialize_returned (env : Env) (fuel : nat) (prog name : string)
    (w w1 : World) :
  run env fuel [prog; "Initialize"; name] w = Some (Returned w1) ->
  exists c,
    poll_gains env fuel 0 (capture_camera calibration_profile) = Some c /\
    load env w1 = Some (calibration_profile, store_file env name +:+ "/") /\
    fs w1 !! store_file env "analog_gain.p"
      = Some (Pickle (PyFraction (analog_gain c))) /\
    fs w1 !! store_file env "digital_gain.p"
      = Some (Pickle (PyFraction (digital_gain c))) /\
    (exists p, fs w1 !! p = Some (Png (frame_of env calibration_profile c))).
Proof.
  unfold_main. cbn. rewrite ?resolve_path. exec; try discriminate.
  all: intros H; injection H as <-.
  all: match goal with
       | H : initialize_camera _ _ _ = Ok ?u _ |- _ =>
           destruct u; apply initialize_camera_returned in H;
           destruct H as (c & path & Hp & P0 & P1 & Hi & He & Hg & Ha & Hd
                            & Himg & _)
       end.
  all: cbn in *; resolve_literals; lookup_norm_in P0; injection P0 as <-.
  all: exists c; unfold load; cbn.
  all: rewrite Hi, He, Hg, P1; auto.
Qed.

(** ** What captures leave alone *)

(** A [Capture()] process, whatever its outcome, changes no file whose path
    does not end in [g], creates and removes no directory, and leaves the
    crontab alone. *)
Lemma main_capture_frame (env : Env) (fuel : nat) (argv : list string)
    (w : World) :
  length argv = 1%nat ->
  match main env fuel argv (mk_proc w 0 [] None) with
  | Ok _ s' | Raise _ s' =>
      (forall p, last_char p <> "g"%char -> fs (world s') !! p = fs w !! p) /\
      (forall p, fs (world s') !! p = Some Dir <-> fs w !! p = Some Dir) /\
      crontab (world s') = crontab w
  | Hang => True
  end.
Proof.
  intros Hl. unfold_main. rewrite Hl. cbn. exec; auto.
  all: use_frames; frame_facts; cbn in *; auto.
  all: congruence.
Qed.

Lemma run_capture_frame (env : Env) (fuel : nat) (argv : list string)
    (w : World) (o : Outcome) :
  length argv = 1%nat ->
  run env fuel argv w = Some o ->
  (forall p, last_char p <> "g"%char -> fs (world_of o) !! p = fs w !! p) /\
  (forall p, fs (world_of o) !! p = Some Dir <-> fs w !! p = Some Dir) /\
  crontab (world_of o) = crontab w.
Proof.
  intros Hl. rewrite run_unfold.
  pose proof (main_capture_frame env fuel argv w Hl) as P.
  destruct (main env fuel argv (mk_proc w 0 [] None));
    intros H; [injection H as <- | injection H as <- | discriminate H];
    exact P.
Qed.

Lemma session_capture_frame (invs : list Invocation) (w w' : World) :
  Forall is_capture invs ->
  session invs w = Some w' ->
  (forall p, last_char p <> "g"%char -> fs w' !! p = fs w !! p) /\
  (forall p, fs w' !! p = Some Dir <-> fs w !! p = Some Dir) /\
  crontab w' = crontab w.
Proof.
  intros Hc. revert w. induction Hc as [|i invs Hi _ IH]; intros w H.
  - injection H as <-. repeat split; auto.
  - cbn [session] in H.
    destruct (run (inv_env i) (inv_fuel i) (inv_argv i) w) as [o|] eqn:R;
      [|discriminate H].
    apply (run_capture_frame _ _ _ _ _ Hi) in R.
    apply IH in H. destruct R as (R1 & R2 & R3), H as (H1 & H2 & H3).
    repeat split.
    + intros p Hp. rewrite H1, R1; auto.
    + intros Hd. apply R2, H2, Hd.
    + intros Hd. apply H2, R2, Hd.
    + congruence.
Qed.

Lemma load_frame (env : Env) (w w' : World) :
  (forall p, last_char p <> "g"%char -> fs w' !! p = fs w !! p) ->
  load env w' = load env w.
Proof.
  intros H. unfold load.
  rewrite !H; [reflexivity | |  | | ];
    rewrite last_char_store_file by discriminate; discriminate.
Qed.

(** C5.  After [Initialize] has returned, the store holds the profile with
    which the calibration pass took the sentinel frame, and no number of
    subsequent [Capture()] invocations, whatever their outcome, changes
    what the store holds. *)
Theorem stored_profile_is_stable (env : Env) (fuel : nat) (prog name : string)
    (w w1 : World) :
  run env fuel [prog; "Initialize"; name] w = Some (Returned w1) ->
  exists profile path,
    load env w1 = Some (profile, path) /\
    (exists p img, fs w1 !! p = Some (Png img) /\
                   img_scene img = scene env /\
                   profile_of_image img = profile) /\
    forall invs w2,
      Forall is_capture invs -> session invs w1 = Some w2 ->
      load env w2 = Some (profile, path).
Proof.
  intros R. apply initialize_returned in R.
  destruct R as (c & Hpoll & Hload & _ & _ & p & Himg).
  exists calibration_profile, (store_file env name +:+ "/").
  split; [exact Hload|]. split.
  - exists p, (frame_of env calibration_profile c).
    split; [exact Himg|]. split; [reflexivity|].
    destruct (poll_gains_keeps _ _ _ _ _ Hpoll) as (_ & Hi & Hs & _).
    unfold profile_of_image, frame_of, snapshot. cbn. rewrite Hi, Hs.
    reflexivity.
  - intros invs w2 Hc Hs. apply session_capture_frame in Hs; [|exact Hc].
    destruct Hs as (Hs & _). rewrite (load_frame env w1 w2 Hs). exact Hload.
Qed.

Lemma stored_profile_is_stable_witness :
  exists profile path,
    load pi_env ready_world = Some (profile, path) /\
    (exists p img, fs ready_world !! p = Some (Png img) /\
                   img_scene img = scene pi_env /\
                   profile_of_image img = profile) /\
    forall invs w2,
      Forall is_capture invs -> session invs ready_world = Some w2 ->
      load pi_env w2 = Some (profile, path).
Proof.
  apply (stored_profile_is_stable pi_env 3 py "exp1" blank_world ready_world).
  vm_compute. reflexivity.
Defined.

(** C9.  The white-balance gains [Initialize] persists are the pair
    (1.5, 1.5) it has just set on the camera, whatever gains the automatic
    white balance had reached ([g], read before, is never used). *)
Theorem persisted_gains_are_constant (env : Env) (fuel : nat)
    (prog name : string) (w w1 : World) :
  run env fuel [prog; "Initialize"; name] w = Some (Returned w1) ->
  fs w1 !! store_file env "awb_gain.p"
  = Some (Pickle (PyGains (3 # 2, 3 # 2))).
Proof.
  intros R. apply initialize_returned in R.
  destruct R as (c & _ & Hload & _). apply load_inv in Hload.
  destruct Hload as (_ & _ & Hg & _). exact Hg.
Qed.

Lemma persisted_gains_are_constant_witness :
  fs ready_world !! store_file pi_env "awb_gain.p"
  = Some (Pickle (PyGains (3 # 2, 3 # 2))).
Proof.
  apply (persisted_gains_are_constant pi_env 3 py "exp1" blank_world
           ready_world).
  vm_compute. reflexivity.
Defined.

(** ** The polling loop inside a run *)

(** A process hangs only in the polling loop. *)
Lemma main_hangs (env : Env) (fuel : nat) (argv : list string) (w : World) :
  main env fuel argv (mk_proc w 0 [] None) = Hang ->
  poll_gains env fuel 0 fresh_camera = None.
Proof.
  unfold_main. exec; try discriminate.
  all: try both_commands.
  all: intros _.
  all: try match goal with
       | H : initialize_camera _ _ _ = Hang |- _ =>
           exact (initialize_camera_hangs _ _ _ H)
       | H : continuous_capture _ _ _ = Hang |- _ =>
           exact (continuous_capture_hangs _ _ _ H)
       end.
  all: use_frames; contradiction.
Qed.

(** Once the camera reports settled gains at some poll, a process with more
    fuel than that always ends. *)
Lemma run_ends (env : Env) (fuel k : nat) (argv : list string) (w : World) :
  settled (gains env k) = true -> (k < fuel)%nat ->
  exists o, run env fuel argv w = Some o.
Proof.
  intros Hs Hk. rewrite run_unfold.
  destruct (main env fuel argv (mk_proc w 0 [] None)) eqn:E; eauto.
  apply main_hangs in E.
  destruct (poll_gains_enough env fuel 0 k fresh_camera Hs) as (c & Hc);
    [lia | congruence].
Qed.

(** A run that returned from [Initialize] or [Capture()] went through the
    loop. *)
Lemma capture_returned_polled (env : Env) (fuel : nat) (argv : list string)
    (w w1 : World) :
  length argv = 1%nat ->
  run env fuel argv w = Some (Returned w1) ->
  exists c c', poll_gains env fuel 0 c = Some c'.
Proof.
  intros Hl. unfold_main. rewrite Hl. cbn. exec; try discriminate.
  all: intros _.
  all: match goal with
       | H : continuous_capture _ _ _ = Ok ?u _ |- _ =>
           destruct u; exact (continuous_capture_returned _ _ _ _ H)
       end.
Qed.

Lemma initialize_hangs (env : Env) (fuel : nat) (prog name : string)
    (w : World) :
  camera_opens env = true ->
  fs w !! store_file env name <> None \/ makedirs_ok env = true ->
  is_dir (fs w !! store_file env "path.p") = false ->
  name <> "path.p" ->
  poll_gains env fuel 0 fresh_camera = None ->
  run env fuel [prog; "Initialize"; name] w = None.
Proof.
  intros Hcam Hdir Hp Hn Hpoll. unfold_main. cbn. rewrite ?resolve_path.
  resolve_literals.
  assert (Hne : store_file env name <> store_file env "path.p").
  { intros E. apply store_file_inj in E. contradiction. }
  destruct (fs w !! store_file env name) as [n|] eqn:Hx; cbn.
  - rewrite Hp. cbn.
    rewrite initialize_camera_polls by assumption. reflexivity.
  - destruct Hdir as [Hdir|Hmk]; [contradiction|].
    rewrite ?resolve_path, Hx, Hmk. cbn.
    rewrite lookup_insert_ne by exact Hne. rewrite Hp. cbn.
    rewrite initialize_camera_polls by assumption. reflexivity.
Qed.

Lemma capture_hangs (env : Env) (fuel : nat) (prog : string) (w : World)
    (i e : Z) :
  camera_opens env = true ->
  fs w !! store_file env "iso.p" = Some (Pickle (PyInt i)) ->
  fs w !! store_file env "shutter_speed.p" = Some (Pickle (PyInt e)) ->
  poll_gains env fuel 0 fresh_camera = None ->
  run env fuel [prog] w = None.
Proof.
  intros Hcam Hi He Hpoll. unfold_main. cbn.
  erewrite continuous_capture_polls; [reflexivity | exact Hcam | | | exact Hpoll];
    cbn; eassumption.
Qed.

(** C8.  In the calibration pass and in every capture the gains are frozen
    only when the polling loop has just read both gains equal to 1, at the
    first poll that reports them so; [Initialize] persists the gains of that
    poll.  The loop has no other exit: if the camera reports settled gains
    at some poll, every process given more fuel than that ends; if it never
    does, an [Initialize] or a [Capture()] that reaches the loop is still
    polling after any number of polls. *)
Theorem gain_polling (env : Env) (prog name : string) (w : World) :
  (forall n k c c',
     poll_gains env n k c = Some c' ->
     exists j, (k <= j < k + n)%nat /\ settled (gains env j) = true /\
               (analog_gain c', digital_gain c') = gains env j /\
               forall i, (k <= i < j)%nat -> settled (gains env i) = false) /\
  (forall fuel w1,
     run env fuel [prog; "Initialize"; name] w = Some (Returned w1) ->
     exists j, (j < fuel)%nat /\ settled (gains env j) = true /\
               (forall i, (i < j)%nat -> settled (gains env i) = false) /\
               fs w1 !! store_file env "analog_gain.p"
                 = Some (Pickle (PyFraction (fst (gains env j)))) /\
               fs w1 !! store_file env "digital_gain.p"
                 = Some (Pickle (PyFraction (snd (gains env j))))) /\
  (forall fuel w1,
     run env fuel [prog] w = Some (Returned w1) ->
     exists j, (j < fuel)%nat /\ settled (gains env j) = true) /\
  (forall k fuel argv,
     settled (gains env k) = true -> (k < fuel)%nat ->
     exists o, run env fuel argv w = Some o) /\
  ((forall k, settled (gains env k) = false) ->
   forall fuel,
     (camera_opens env = true ->
      fs w !! store_file env name <> None \/ makedirs_ok env = true ->
      is_dir (fs w !! store_file env "path.p") = false ->
      name <> "path.p" ->
      run env fuel [prog; "Initialize"; name] w = None) /\
     (forall i e,
        camera_opens env = true ->
        fs w !! store_file env "iso.p" = Some (Pickle (PyInt i)) ->
        fs w !! store_file env "shutter_speed.p" = Some (Pickle (PyInt e)) ->
        run env fuel [prog] w = None)).
Proof.
  split; [|split; [|split; [|split]]].
  - intros n k c c' H. apply poll_gains_some in H.
    destruct H as (j & Hj & Hs & -> & Hb). exists j.
    repeat split; try lia; auto. cbn. destruct (gains env j); reflexivity.
  - intros fuel w1 R. apply initialize_returned in R.
    destruct R as (c & Hpoll & _ & Ha & Hd & _).
    apply poll_gains_some in Hpoll.
    destruct Hpoll as (j & Hj & Hs & -> & Hb). exists j.
    repeat split; try lia; auto. intros i Hi. apply Hb. lia.
  - intros fuel w1 R. apply capture_returned_polled in R; [|reflexivity].
    destruct R as (c & c' & Hpoll). apply poll_gains_some in Hpoll.
    destruct Hpoll as (j & Hj & Hs & _). exists j. split; [lia | exact Hs].
  - intros k fuel argv Hs Hk. eapply run_ends; eassumption.
  - intros Hnever fuel. split.
    + intros Hcam Hdir Hp Hn. apply initialize_hangs; auto.
      apply poll_gains_never, Hnever.
    + intros i e Hcam Hi He. eapply capture_hangs; eauto.
      apply poll_gains_never, Hnever.
Qed.

Lemma gain_polling_witness :
  (exists o, run pi_env 3 [py] ready_world = Some o) /\
  run restless_env 1000 [py] ready_world = None /\
  run restless_env 1000 [py; "Initialize"; "exp2"] ready_world = None.
Proof.
  destruct (gain_polling pi_env py "exp2" ready_world)
    as (_ & _ & _ & Hends & _).
  destruct (gain_polling restless_env py "exp2" ready_world)
    as (_ & _ & _ & _ & Hnever).
  split; [apply (Hends 2%nat); [reflexivity | lia]|].
  assert (Hr : forall k, settled (gains restless_env k) = false)
    by (intros k; reflexivity).
  destruct (Hnever Hr 1000%nat) as (Hinit & Hcap).
  split.
  - apply (Hcap 100%Z 1000000%Z); vm_compute; reflexivity.
  - apply Hinit; [reflexivity | right; reflexivity | vm_compute; reflexivity
                 | discriminate].
Defined.

(** ** The output directory *)




(** ** [Initialize] goes through *)











(** ** Time stamps *)

















(** ** One capture that goes through *)

Lemma resolve_absolute (env : Env) (p x : string) :
  is_absolute p = true -> resolve env (p +:+ x) = p +:+ x.
Proof.
  destruct p as [|c p]; [discriminate|].
  rewrite append_cons. unfold resolve, is_absolute.
  destruct c as [[] [] [] [] [] [] [] []]; try discriminate; reflexivity.
Qed.

Lemma png_free_is_dir (w : World) (p : string) :
  png_free w -> is_dir (fs w !! (p +:+ ".png")) = false.
Proof. intros H. apply is_dir_false, H. Qed.

Lemma capture_filename_png (env : Env) (t : struct_time) :
  capture_filename env t
  = (getcwd env +:+ "/" +:+ strftime "%Y_%m_%d_%H%M%S" t) +:+ ".png".
Proof.
  unfold capture_filename, store_file, stamp. rewrite !append_assoc.
  reflexivity.
Qed.

Lemma profile_of_frame (env : Env) (p : CalibrationProfile) (n : nat)
    (c : PiCamera) :
  poll_gains env n 0 (capture_camera p) = Some c ->
  profile_of_image (frame_of env p c) = p.
Proof.
  intros H. destruct (poll_gains_keeps _ _ _ _ _ H) as (_ & Hi & Hs & _).
  unfold profile_of_image, frame_of, snapshot. cbn. rewrite Hi, Hs.
  destruct p; reflexivity.
Qed.

Lemma capture_succeeds (env : Env) (fuel k : nat) (argv : list string)
    (w : World) (p : CalibrationProfile) (path : string) :
  length argv = 1%nat ->
  camera_opens env = true -> capture_ok env = true ->
  settled (gains env k) = true -> (k < fuel)%nat ->
  load env w = Some (p, path) -> is_absolute path = true -> png_free w ->
  exists w1 img,
    run env fuel argv w = Some (Returned w1) /\
    img_scene img = scene env /\ profile_of_image img = p /\
    fs w1 = <[path +:+ stamp (clock env 1) := Png img]>
              (delete (capture_filename env (clock env 0))
                 (<[capture_filename env (clock env 0) := Png img]> (fs w))).
Proof.
  intros Hl Hcam Hcap Hs Hk Hload Habs Hfree.
  destruct (poll_gains_enough env fuel 0 k (capture_camera p) Hs)
    as (c & Hpoll); [lia|].
  exists (set_pin12 Input
            (set_pin12 (Output false)
               (set_shell (shell w ++ [drive_push +:+ path])
                  (set_fs (<[path +:+ stamp (clock env 1) :=
                               Png (frame_of env p c)]>
                             (delete (capture_filename env (clock env 0))
                                (<[capture_filename env (clock env 0) :=
                                     Png (frame_of env p c)]> (fs w))))
                     (set_pin12 (Output true)
                        (set_stdout (stdout w ++ ["Taking Photo"])
                           (set_pin12 (Output false) w))))))),
    (frame_of env p c).
  split; [|split; [reflexivity|split; [eapply profile_of_frame, Hpoll|reflexivity]]].
  unfold_main. rewrite Hl. cbn.
  match goal with
  | |- context [continuous_capture env fuel ?s] =>
      rewrite (continuous_capture_ok env fuel s p path c)
  end; try assumption; cbn.
  - unfold capture_destination. rewrite resolve_absolute by exact Habs.
    reflexivity.
  - rewrite capture_filename_png. apply png_free_is_dir, Hfree.
  - unfold capture_destination, stamp.
    rewrite resolve_absolute by exact Habs.
    rewrite <- append_assoc. apply png_free_is_dir, Hfree.
Qed.

(** ** A series of captures *)





Lemma getcwd_workdir (e e0 : Env) :
  workdir e = workdir e0 -> getcwd e = getcwd e0.
Proof. unfold getcwd. intros ->. reflexivity. Qed.

Lemma load_workdir (e e0 : Env) (w : World) :
  workdir e = workdir e0 -> load e w = load e0 w.
Proof.
  intros H. unfold load, store_file. rewrite (getcwd_workdir e e0 H).
  reflexivity.
Qed.







Lemma dirs_not_g_png_free (w : World) : dirs_not_g w = true -> png_free w.
Proof.
  unfold dirs_not_g, png_free. intros H p Hd.
  rewrite forallb_forall in H.
  apply elem_of_map_to_list, list_elem_of_In in Hd.
  specialize (H _ Hd). cbn in H.
  rewrite last_char_app in H by discriminate. discriminate H.
Qed.




(** * Further properties of the script *)

(** ** What a capture that returns has done *)


(** The push to Google Drive is the last statement of a capture. *)
Lemma continuous_capture_push (env : Env) (fuel : nat) (s : Proc) :
  match continuous_capture env fuel s with
  | Ok _ s' =>
      exists path,
        fs (world s) !! store_file env "path.p" = Some (Pickle (PyStr path)) /\
        shell (world s') = (shell (world s) ++ [drive_push +:+ path])%list
  | Raise _ s' => shell (world s') = shell (world s)
  | Hang => True
  end.
Proof.
  unfold continuous_capture. unfold_prims. exec; auto.
  all: destruct s as [w ? ? ?]; cbn in *; fs_facts; eauto.
Qed.

Ltac use_push :=
  match goal with
  | H : continuous_capture ?e ?f ?s = _ |- _ =>
      let P := fresh "P" in
      pose proof (continuous_capture_push e f s) as P; rewrite H in P;
      cbn in P
  end.

(** From a statement about [main] to one about [run]. *)
Ltac by_main P :=
  rewrite run_unfold;
  match goal with
  | |- match ?m with _ => _ end = Some _ -> _ => destruct m
  end;
  (let H := fresh "H" in
   intros H; first [discriminate H | injection H as <-; exact P]).

Lemma main_capture_push (env : Env) (fuel : nat) (argv : list string)
    (w : World) :
  length argv = 1%nat ->
  match main env fuel argv (mk_proc w 0 [] None) with
  | Ok _ s' =>
      exists path,
        fs w !! store_file env "path.p" = Some (Pickle (PyStr path)) /\
        shell (world s') = (shell w ++ [drive_push +:+ path])%list
  | Raise _ s' => shell (world s') = shell w
  | Hang => True
  end.
Proof.
  intros Hl. unfold_main. rewrite Hl. cbn. exec; auto.
  all: use_push; try exact P.
  all: use_frames; frame_facts; cbn in *; congruence.
Qed.

Lemma main_timecourse_push (env : Env) (fuel : nat) (prog v : string)
    (w : World) :
  match main env fuel [prog; "TimeCourse"; v] (mk_proc w 0 [] None) with
  | Ok _ s' =>
      exists path,
        fs w !! store_file env "path.p" = Some (Pickle (PyStr path)) /\
        shell (world s') = (shell w ++ [drive_push +:+ path])%list
  | Raise _ s' => shell (world s') = shell w
  | Hang => True
  end.
Proof.
  unfold_main. cbn.
  match goal with
  | |- context [begin_CRON env (mk_proc ?w0 ?r [] (Some ?v0))] =>
      pose proof (begin_CRON_cases env w0 r v0) as B;
      destruct (begin_CRON env (mk_proc w0 r [] (Some v0))) as [[] sb|eb sb|]
  end; [| |contradiction].
  - destruct B as (_ & B). exec; auto.
    all: try use_push.
    all: rewrite ?B in *; cbn in *; try exact P.
    all: use_frames; frame_facts; cbn in *; try congruence.
    all: rewrite ?B in *; cbn in *; try congruence.
  - destruct B as (_ & _ & B). cbn. rewrite B. reflexivity.
Qed.

(** X1.  A capture, alone or after the scheduling of [TimeCourse], pushes
    the output directory to Google Drive exactly when it goes through: an
    invocation that returns has issued one [drive push] command, for the
    directory that [path.p] names; an invocation that raises has issued
    none. *)
Theorem drive_push_follows_capture (env : Env) (fuel : nat) (argv : list string)
    (w : World) (o : Outcome) :
  length argv = 1%nat \/ (exists prog v, argv = [prog; "TimeCourse"; v]) ->
  run env fuel argv w = Some o ->
  match o with
  | Returned w' =>
      exists path,
        fs w !! store_file env "path.p" = Some (Pickle (PyStr path)) /\
        shell w' = (shell w ++ [drive_push +:+ path])%list
  | Raised _ w' => shell w' = shell w
  end.
Proof.
  intros [Hl | (prog & v & ->)].
  - pose proof (main_capture_push env fuel argv w Hl) as P. by_main P.
  - pose proof (main_timecourse_push env fuel prog v w) as P. by_main P.
Qed.

Lemma drive_push_follows_capture_witness :
  exists path,
    fs ready_world !! store_file pi_env "path.p" = Some (Pickle (PyStr path)) /\
    shell captured_world = (shell ready_world ++ [drive_push +:+ path])%list.
Proof.
  apply (drive_push_follows_capture pi_env 3 [py] ready_world
           (Returned captured_world)).
  - left. reflexivity.
  - vm_compute. reflexivity.
Defined.







(** ** Scheduling and its failures *)





(** X5.  An interval that the crontab library rejects.  [job.minute.every]
    raises before [cron.write()] is reached: the invocation ends with that
    error, the installed crontab is what it was, no photo is taken and no
    file written, and the illumination has not been switched on. *)
Theorem timecourse_rejected_interval (env : Env) (fuel : nat) (prog v : string)
    (w : World) :
  every_ok env = false ->
  exists w',
    run env fuel [prog; "TimeCourse"; v] w = Some (Raised ValueError w') /\
    crontab w' = crontab w /\ fs w' = fs w /\ shell w' = shell w /\
    pin12 w' = Output false /\
    stdout w' = (stdout w ++ ["Scheduling CRON Job"])%list.
Proof.
  intros Hev. unfold_main. cbn.
  match goal with
  | |- context [begin_CRON env (mk_proc ?w0 ?r [] (Some ?v0))] =>
      destruct (begin_CRON_refused env w0 r v0 Hev) as (s' & -> & Hw)
  end.
  eexists. split; [reflexivity|]. rewrite Hw. cbn. repeat split.
Qed.

Lemma timecourse_rejected_interval_witness :
  exists w',
    run (with_every_ok false pi_env) 3 [py; "TimeCourse"; "hourly"]
        scheduled_world
    = Some (Raised ValueError w') /\
    crontab w' = crontab scheduled_world /\ fs w' = fs scheduled_world /\
    shell w' = shell scheduled_world /\ pin12 w' = Output false /\
    stdout w' = (stdout scheduled_world ++ ["Scheduling CRON Job"])%list.
Proof.
  apply (timecourse_rejected_interval (with_every_ok false pi_env) 3 py
           "hourly" scheduled_world).
  reflexivity.
Defined.

(** ** What a run can raise *)




(** ** The console *)

Lemma main_console (env : Env) (fuel : nat) (argv : list string) (w : World) :
  match main env fuel argv (mk_proc w 0 [] None) with
  | Ok _ s' => stdout (world s') = (stdout w ++ console argv)%list
  | Raise _ s' =>
      exists msgs rest,
        stdout (world s') = (stdout w ++ msgs)%list /\
        console argv = (msgs ++ rest)%list /\
        (length argv = 3%nat -> rest <> [])
  | Hang => True
  end.
Proof.
  unfold console. unfold_main. exec; auto.
  all: try both_commands.
  all: use_frames; frame_facts; cbn in *.
  all: repeat match goal with H : world ?s = _ |- _ => rewrite H in * end.
  all: cbn in *.
  all: repeat match goal with
       | H : stdout (world ?s) = _ |- _ => rewrite H
       end.
  all: rewrite <- ?app_assoc; cbn; rewrite ?app_nil_r; try reflexivity.
  all: try congruence.
  all: try (eexists _, _; split; [reflexivity|]; split; [reflexivity|];
            first [discriminate | intros; discriminate]).
  exists ["Taking Photo"], []. repeat split.
  intros E. rewrite E in *. discriminate.
Qed.

(** X7.  The console reports what was done.  An invocation that returns
    has printed every message of its command, in order; an invocation that
    raises has printed a first part of them, and for [Initialize] and
    [TimeCourse] never the last: [Initialized] and [Time Course Active]
    appear only when everything before them went through. *)
Theorem console_of_a_run (env : Env) (fuel : nat) (argv : list string)
    (w : World) (o : Outcome) :
  run env fuel argv w = Some o ->
  match o with
  | Returned w' => stdout w' = (stdout w ++ console argv)%list
  | Raised _ w' =>
      exists msgs rest,
        stdout w' = (stdout w ++ msgs)%list /\
        console argv = (msgs ++ rest)%list /\
        (length argv = 3%nat -> rest <> [])
  end.
Proof. pose proof (main_console env fuel argv w) as P. by_main P. Qed.

Lemma console_of_a_run_witness :
  stdout ready_world
  = (stdout blank_world ++ ["Initializing..."; "Taking Photo"; "Initialized"])%list.
Proof.
  apply (console_of_a_run pi_env 3 [py; "Initialize"; "exp1"] blank_world
           (Returned ready_world)).
  vm_compute. reflexivity.
Defined.

(** ** The command line *)

(** X8.  Only the number of arguments selects the plain capture: with no
    argument, or with three or more, whatever they are, the script does
    what it does when started by cron, and reads none of them. *)
Theorem other_argument_counts_capture (env : Env) (fuel : nat)
    (argv : list string) (prog : string) (w : World) :
  length argv <> 2%nat -> length argv <> 3%nat ->
  run env fuel argv w = run env fuel [prog] w.
Proof.
  intros H2 H3. apply Nat.eqb_neq in H2, H3.
  unfold run, main. rewrite H2, H3. reflexivity.
Qed.

Lemma other_argument_counts_capture_witness :
  run pi_env 3 [py; "TimeCourse"; "60"; "now"] ready_world
  = run pi_env 3 [py] ready_world.
Proof.
  apply (other_argument_counts_capture pi_env 3
           [py; "TimeCourse"; "60"; "now"] py ready_world);
    cbn; lia.
Defined.

(** X9.  Captures do not adjust the cron job.  Any series of no-argument
    invocations, whatever the outcome of each, leaves the installed crontab
    as it was, line for line, and neither creates nor removes a
    directory. *)
Theorem captures_leave_crontab (env : Env) (invs : list Invocation)
    (w w' : World) :
  Forall is_capture invs -> session invs w = Some w' ->
  crontab w' = crontab w /\
  trigger_entries env w' = trigger_entries env w /\
  (forall p, fs w' !! p = Some Dir <-> fs w !! p = Some Dir).
Proof.
  intros Hc Hs.
  destruct (session_capture_frame invs w w' Hc Hs) as (_ & Hd & Hcron).
  unfold trigger_entries. rewrite Hcron. auto.
Qed.

Lemma captures_leave_crontab_witness :
  crontab ticked_world = crontab scheduled_world /\
  trigger_entries pi_env ticked_world
  = trigger_entries pi_env scheduled_world /\
  (forall p, fs ticked_world !! p = Some Dir
             <-> fs scheduled_world !! p = Some Dir).
Proof.
  apply (captures_leave_crontab pi_env same_second_captures).
  - repeat constructor.
  - vm_compute. reflexivity.
Defined.

(** ** Captures and the store *)



Ltac settle k Hs :=
  match goal with
  | |- context [poll_gains ?env ?fuel 0 ?cam] =>
      let c := fresh "c" in
      let Hc := fresh "Hc" in
      destruct (poll_gains_enough env fuel 0 k cam Hs) as (c & Hc);
      [lia | rewrite Hc; cbn]
  end.

(** X11.  A store with a file missing.  The capture reads the store in the
    order [iso.p], [shutter_speed.p], [awb_gain.p], [path.p], the first two
    before the polling loop and the last two after it, and stops at the
    first file that is not there, with the error of its [open]; nothing has
    been written or pushed by then, and the illumination stays on.  The
    first two failures need no reading of the gains; the last two are
    reached once the gains have settled. *)
Theorem capture_reports_first_missing_file (env : Env) (fuel : nat)
    (prog : string) (w : World) (i e : Z) (g : Q * Q) :
  camera_opens env = true ->
  (fs w !! store_file env "iso.p" = None ->
   missing_file_failure env fuel prog w "iso.p") /\
  (fs w !! store_file env "iso.p" = Some (Pickle (PyInt i)) ->
   fs w !! store_file env "shutter_speed.p" = None ->
   missing_file_failure env fuel prog w "shutter_speed.p") /\
  (forall k,
     settled (gains env k) = true -> (k < fuel)%nat ->
     fs w !! store_file env "iso.p" = Some (Pickle (PyInt i)) ->
     fs w !! store_file env "shutter_speed.p" = Some (Pickle (PyInt e)) ->
     (fs w !! store_file env "awb_gain.p" = None ->
      missing_file_failure env fuel prog w "awb_gain.p") /\
     (fs w !! store_file env "awb_gain.p" = Some (Pickle (PyGains g)) ->
      fs w !! store_file env "path.p" = None ->
      missing_file_failure env fuel prog w "path.p")).
Proof.
  intros Hcam. unfold missing_file_failure.
  split; [|split].
  - intros Hi. eexists. unfold_main. cbn.
    unfold continuous_capture. unfold_prims. rewrite Hcam. cbn.
    rewrite ?resolve_cd. rewrite Hi. cbn. repeat split.
  - intros Hi He. eexists. unfold_main. cbn.
    unfold continuous_capture. unfold_prims. rewrite Hcam. cbn.
    rewrite ?resolve_cd. rewrite Hi. cbn. rewrite ?resolve_cd. rewrite He. cbn.
    repeat split.
  - intros k Hs Hk Hi He. split.
    + intros Hg. unfold_main. cbn.
      unfold continuous_capture. unfold_prims. rewrite Hcam. cbn.
      rewrite ?resolve_cd. rewrite Hi. cbn. rewrite ?resolve_cd. rewrite He. cbn.
      settle k Hs. rewrite ?resolve_cd. rewrite Hg. cbn.
      eexists. repeat split.
    + intros Hg Hp. unfold_main. cbn.
      unfold continuous_capture. unfold_prims. rewrite Hcam. cbn.
      rewrite ?resolve_cd. rewrite Hi. cbn. rewrite ?resolve_cd. rewrite He. cbn.
      settle k Hs. rewrite ?resolve_cd. rewrite Hg. cbn.
      rewrite ?resolve_cd. rewrite Hp. cbn.
      eexists. repeat split.
Qed.

Lemma capture_reports_first_missing_file_witness :
  missing_file_failure pi_env 3 py damaged_world "awb_gain.p".
Proof.
  destruct (capture_reports_first_missing_file pi_env 3 py damaged_world
              100 1000000 (3 # 2, 3 # 2)%Q eq_refl) as (_ & _ & H).
  destruct (H 2%nat) as (Hawb & _).
  - reflexivity.
  - lia.
  - vm_compute. reflexivity.
  - vm_compute. reflexivity.
  - apply Hawb. vm_compute. reflexivity.
Defined.

(** ** [Initialize] that fails half-way *)




(** ** [Initialize] and what follows it *)

(** X13.  The session as it is meant to be used: after an [Initialize]
    that returned, a capture started in the same working directory, with a
    camera that opens, settles and captures, returns, and the output
    directory of the session holds, under the name of the time of the
    capture, the frame of the scene taken with the calibration profile
    (ISO 100, one second, gains 1.5 and 1.5). *)
Theorem initialize_then_capture (env env2 : Env) (fuel fuel2 k : nat)
    (prog prog2 name : string) (w w1 : World) :
  run env fuel [prog; "Initialize"; name] w = Some (Returned w1) ->
  png_free w1 ->
  workdir env2 = workdir env ->
  camera_opens env2 = true -> capture_ok env2 = true ->
  settled (gains env2 k) = true -> (k < fuel2)%nat ->
  exists w2 img,
    run env2 fuel2 [prog2] w1 = Some (Returned w2) /\
    fs w2 !! ((store_file env name +:+ "/") +:+ stamp (clock env2 1))
      = Some (Png img) /\
    img_scene img = scene env2 /\
    profile_of_image img = mk_profile 100 1000000 (3 # 2, 3 # 2).
Proof.
  intros R Hfree Hwd Hcam Hcap Hs Hk.
  apply initialize_returned in R. destruct R as (c & _ & Hload & _).
  rewrite <- (load_workdir env2 env w1 Hwd) in Hload.
  destruct (capture_succeeds env2 fuel2 k [prog2] w1 calibration_profile
              (store_file env name +:+ "/"))
    as (w2 & img & R2 & Hsc & Hpr & Hfs); try assumption; try reflexivity.
  exists w2, img. split; [exact R2|].
  rewrite Hfs, lookup_insert_eq. auto.
Qed.

Lemma initialize_then_capture_witness :
  exists w2 img,
    run hour_later_env 3 [py] ready_world = Some (Returned w2) /\
    fs w2 !! ((store_file pi_env "exp1" +:+ "/")
                +:+ stamp (clock hour_later_env 1)) = Some (Png img) /\
    img_scene img = scene hour_later_env /\
    profile_of_image img = mk_profile 100 1000000 (3 # 2, 3 # 2).
Proof.
  apply (initialize_then_capture pi_env hour_later_env 3 3 2 py py "exp1"
           blank_world ready_world).
  - vm_compute. reflexivity.
  - apply dirs_not_g_png_free. vm_compute. reflexivity.
  - reflexivity.
  - reflexivity.
  - reflexivity.
  - reflexivity.
  - lia.
Defined.










(** ** What a capture that fails leaves behind *)





(** ** The sentinel image *)











